(** * Powerlifting warm-up and max-rep estimator: a shallow embedding

    The estimation engine of [powerlifting_backend/utils.py]:
    the RPE chart [RPE_PERCENT_TABLE], the lookup [_lookup_percent] with its
    Epley fallback, the warm-up generator [calculate_warmup_sets] and the
    reverse search [predict_max_reps].

    Python numbers are embedded through an interface [PyFloat] of the float
    operations the module uses.  Every function of the module is written
    once, over that interface, and read at two instances:

    - [binary64]: IEEE 754 double precision (the kernel's primitive floats),
      with Python's conversions and errors: what the interpreter computes;
    - [exact]: rational arithmetic without rounding, the "real number" of
      the data model, with [float('inf')] as an extra point.

    Python integers are [Z]; exceptions are values of [exn] threaded through
    the error monad [result]. *)

From Stdlib Require Import ZArith QArith Qabs Lqa Lia Bool String List.
From Stdlib Require Import PrimFloat SpecFloat FloatOps FloatAxioms.
Import ListNotations.

Local Open Scope Z_scope.

(** ** Exceptions and the error monad *)

Inductive exn : Type :=
| ValueError (msg : string)
| OverflowError (msg : string)
| ZeroDivisionError (msg : string).

Inductive result (A : Type) : Type :=
| Return (a : A)
| Raise (e : exn).

Arguments Return {A} a.
Arguments Raise {A} e.

Definition bind {A B : Type} (c : result A) (k : A -> result B) : result B :=
  match c with
  | Return a => k a
  | Raise e => Raise e
  end.

Declare Scope py_scope.
Delimit Scope py_scope with py.
Notation "x <- c ;; k" := (bind c (fun x => k))
  (at level 61, c at next level, right associativity) : py_scope.
Local Open Scope py_scope.

(** The spec's [InvalidInput] is the code's [ValueError]. *)
Definition is_InvalidInput {A : Type} (r : result A) : Prop :=
  exists msg, r = Raise (ValueError msg).

Definition returns {A : Type} (r : result A) : Prop :=
  exists a, r = Return a.

(** ** Python dictionaries with literal keys

    A dict display is an association list; [k in d] and [d[k]] search it
    with the key equality of the key type (the chart has no duplicate key). *)

Fixpoint dict_get {K V : Type} (eqb : K -> K -> bool) (k : K) (d : list (K * V))
  : option V :=
  match d with
  | [] => None
  | (k', v) :: d' => if eqb k k' then Some v else dict_get eqb k d'
  end.

(** [range(lo, hi)] *)
Definition range (lo hi : Z) : list Z :=
  map (fun i => lo + Z.of_nat i) (seq 0 (Z.to_nat (hi - lo))).

(** ** The float interface *)

Class PyFloat (F : Type) : Type := {
  (** a decimal literal of the source text *)
  lit : Q -> F;
  (** [float('inf')] *)
  inf : F;
  (** the implicit conversion of an [int] operand *)
  of_int : Z -> result F;
  fadd : F -> F -> F;
  fsub : F -> F -> F;
  fmul : F -> F -> F;
  (** [x / y], raising [ZeroDivisionError] *)
  truediv : F -> F -> result F;
  fabs : F -> F;
  feq : F -> F -> bool;
  fle : F -> F -> bool;
  flt : F -> F -> bool;
  (** [round(x)] with one argument: the nearest [int], ties to even *)
  round : F -> result Z
}.

Arguments lit {F _} _%_Q.

(** ** The module, over the interface *)

Section Engine.

Context {F : Type} `{PyFloat F}.

Record WarmupSet : Type := {
  set_number : Z;
  weight : F;
  reps : Z;
  description : string
}.

(** RPE chart: percentage of 1RM at each rep count, per RPE. *)
Definition RPE_PERCENT_TABLE : list (F * list (Z * Z)) :=
  [ (lit 10,  [(1, 100); (2, 95); (3, 92); (4, 89); (5, 86);
               (6, 84); (7, 81); (8, 79); (9, 76); (10, 74)]);
    (lit 9.5, [(1, 98); (2, 94); (3, 91); (4, 88); (5, 85);
               (6, 82); (7, 80); (8, 77); (9, 75); (10, 72)]);
    (lit 9,   [(1, 96); (2, 92); (3, 89); (4, 86); (5, 84);
               (6, 81); (7, 79); (8, 76); (9, 74); (10, 71)]);
    (lit 8.5, [(1, 94); (2, 89); (3, 87); (4, 84); (5, 81);
               (6, 79); (7, 76); (8, 74); (9, 71); (10, 69)]);
    (lit 8,   [(1, 92); (2, 87); (3, 84); (4, 81); (5, 79);
               (6, 76); (7, 74); (8, 71); (9, 69); (10, 66)]);
    (lit 7.5, [(1, 89); (2, 84); (3, 81); (4, 79); (5, 76);
               (6, 74); (7, 71); (8, 69); (9, 66); (10, 64)]) ].

(** [_lookup_percent(rpe, reps)].  [reps] is already an [int], so
    [int(reps)] is the identity; [pct] starts as [None]. *)
Definition _lookup_percent (rpe : F) (reps : Z) : result F :=
  n <- round (fmul rpe (lit 2)) ;;
  n' <- of_int n ;;
  rpe <- truediv n' (lit 2) ;;
  pct <- match dict_get feq rpe RPE_PERCENT_TABLE with
         | Some row =>
             match dict_get Z.eqb reps row with
             | Some v =>
                 v' <- of_int v ;;
                 p <- truediv v' (lit 100.0) ;;
                 Return (Some p)
             | None => Return None
             end
         | None => Return None
         end ;;
  match pct with
  | Some p => Return p
  | None =>
      k <- of_int (reps - 1) ;;
      truediv (lit 1) (fadd (lit 1) (fmul (lit 0.0333) k))
  end.

Definition warmup_percentages : list (F * Z * string) :=
  [ (lit 0.5, 5, "50% of top set"%string);
    (lit 0.7, 3, "70% of top set"%string);
    (lit 0.8, 2, "80% of top set"%string);
    (lit 0.9, 1, "90% of top set"%string) ].

(** The [for idx, (pct, warm_reps, descr) in enumerate(..., start=1)] loop,
    appending to [warmup_sets]. *)
Fixpoint warmup_loop (weight : F) (idx : Z) (todo : list (F * Z * string))
    (warmup_sets : list WarmupSet) : result (list WarmupSet) :=
  match todo with
  | [] => Return warmup_sets
  | (pct, warm_reps, descr) :: todo' =>
      q <- truediv (fmul weight pct) (lit 2.5) ;;
      n <- round q ;;
      n' <- of_int n ;;
      let set_weight := fmul n' (lit 2.5) in
      warmup_loop weight (idx + 1) todo'
        (warmup_sets ++ [ {| set_number := idx;
                             weight := set_weight;
                             reps := warm_reps;
                             description := descr |} ])
  end.

Definition calculate_warmup_sets (rpe weight : F) (reps : Z)
  : result (list WarmupSet) :=
  if negb (fle (lit 5.0) rpe && fle rpe (lit 10.0)) then
    Raise (ValueError "RPE must be 5.0–10.0")
  else if fle weight (lit 0) then
    Raise (ValueError "Weight must be positive")
  else if negb ((1 <=? reps) && (reps <=? 20)) then
    Raise (ValueError "Reps must be 1–20")
  else
    warmup_loop weight 1 warmup_percentages [].

(** One pass of the [for test_reps in range(1, 16)] loop, carrying
    [min_diff] and [best_reps]. *)
Fixpoint predict_loop (weight rpe : F) (todo : list Z)
    (min_diff : F) (best_reps : Z) : result Z :=
  match todo with
  | [] => Return best_reps
  | test_reps :: todo' =>
      pct <- _lookup_percent rpe test_reps ;;
      est_1rm <- (if flt (lit 0) pct then truediv weight pct else of_int 0) ;;
      let calc_weight := fmul est_1rm pct in
      let diff := fabs (fsub calc_weight weight) in
      if flt diff min_diff
      then predict_loop weight rpe todo' diff test_reps
      else predict_loop weight rpe todo' min_diff best_reps
  end.

Definition predict_max_reps (weight rpe : F) : result Z :=
  if fle weight (lit 0) then
    Raise (ValueError "Weight must be positive")
  else if negb (fle (lit 5.0) rpe && fle rpe (lit 10.0)) then
    Raise (ValueError "RPE must be 5.0–10.0")
  else
    predict_loop weight rpe (range 1 16) inf 1.

End Engine.

Arguments WarmupSet F : clear implicits.

(** ** Rounding to the nearest integer, ties to even *)

(** [round] of the rational [n/d]: floor and remainder, then the comparison
    of twice the remainder with the denominator. *)
Definition round_half_even (x : Q) : Z :=
  let n := Qnum x in
  let d := Z.pos (Qden x) in
  let q := n / d in
  let r := n mod d in
  match (2 * r ?= d) with
  | Lt => q
  | Gt => q + 1
  | Eq => if Z.even q then q else q + 1
  end.

(** ** The exact instance: rationals and [float('inf')] *)

Inductive xQ : Type :=
| Fin (q : Q)
| Inf.

Definition Qlt_bool (x y : Q) : bool := negb (Qle_bool y x).

(** Arithmetic is that of [Q] on finite values.  [Inf] is only ever the
    initial [min_diff]; it is absorbing where an operation meets it. *)
Definition xQ_lift2 (f : Q -> Q -> Q) (x y : xQ) : xQ :=
  match x, y with
  | Fin a, Fin b => Fin (f a b)
  | _, _ => Inf
  end.

Definition xQ_truediv (x y : xQ) : result xQ :=
  match x, y with
  | Fin a, Fin b =>
      if Qeq_bool b 0 then Raise (ZeroDivisionError "float division by zero")
      else Return (Fin (a / b))
  | Fin _, Inf => Return (Fin 0)
  | Inf, Fin b =>
      if Qeq_bool b 0 then Raise (ZeroDivisionError "float division by zero")
      else Return Inf
  | Inf, Inf => Return Inf
  end.

Definition xQ_abs (x : xQ) : xQ :=
  match x with
  | Fin a => Fin (Qabs a)
  | Inf => Inf
  end.

Definition xQ_eq (x y : xQ) : bool :=
  match x, y with
  | Fin a, Fin b => Qeq_bool a b
  | Inf, Inf => true
  | _, _ => false
  end.

Definition xQ_le (x y : xQ) : bool :=
  match x, y with
  | Fin a, Fin b => Qle_bool a b
  | _, Inf => true
  | Inf, Fin _ => false
  end.

Definition xQ_lt (x y : xQ) : bool :=
  match x, y with
  | Fin a, Fin b => Qlt_bool a b
  | Fin _, Inf => true
  | Inf, _ => false
  end.

Definition xQ_round (x : xQ) : result Z :=
  match x with
  | Fin a => Return (round_half_even a)
  | Inf => Raise (OverflowError "cannot convert float infinity to integer")
  end.

#[export] Instance exact : PyFloat xQ := {
  lit := Fin;
  inf := Inf;
  of_int := fun n => Return (Fin (inject_Z n));
  fadd := xQ_lift2 Qplus;
  fsub := xQ_lift2 Qminus;
  fmul := xQ_lift2 Qmult;
  truediv := xQ_truediv;
  fabs := xQ_abs;
  feq := xQ_eq;
  fle := xQ_le;
  flt := xQ_lt;
  round := xQ_round
}.

(** ** The binary64 instance: Python's [float] *)

(** [float(n)]: the nearest double, ties to even (infinite when [n] is
    beyond the largest double). *)
Definition Z2F (n : Z) : float :=
  SF2Prim (binary_normalize prec emax n 0 false).

(** The rational a finite double stands for. *)
Definition F2Q (x : float) : option Q :=
  match Prim2SF x with
  | S754_zero _ => Some 0%Q
  | S754_finite s m e =>
      let sm := if s then Z.neg m else Z.pos m in
      Some (match e with
            | Z.neg p => Qmake sm (2 ^ p)
            | _ => inject_Z (sm * 2 ^ e)
            end)
  | S754_infinity _ => None
  | S754_nan => None
  end.

Definition b64_lit (q : Q) : float :=
  PrimFloat.div (Z2F (Qnum q)) (Z2F (Z.pos (Qden q))).

Definition b64_of_int (n : Z) : result float :=
  let x := Z2F n in
  if PrimFloat.is_infinity x
  then Raise (OverflowError "int too large to convert to float")
  else Return x.

Definition b64_truediv (x y : float) : result float :=
  if PrimFloat.eqb y PrimFloat.zero
  then Raise (ZeroDivisionError "float division by zero")
  else Return (PrimFloat.div x y).

Definition b64_round (x : float) : result Z :=
  match F2Q x with
  | Some q => Return (round_half_even q)
  | None =>
      if PrimFloat.is_nan x
      then Raise (ValueError "cannot convert float NaN to integer")
      else Raise (OverflowError "cannot convert float infinity to integer")
  end.

#[export] Instance binary64 : PyFloat float := {
  lit := b64_lit;
  inf := PrimFloat.infinity;
  of_int := b64_of_int;
  fadd := PrimFloat.add;
  fsub := PrimFloat.sub;
  fmul := PrimFloat.mul;
  truediv := b64_truediv;
  fabs := PrimFloat.abs;
  feq := PrimFloat.eqb;
  fle := PrimFloat.leb;
  flt := PrimFloat.ltb;
  round := b64_round
}.

(** ** The lookup as the specification words it *)

Section Reference.

Context {F : Type} `{PyFloat F}.

(** Quantization to the 0.5 grid: [round(rpe*2)/2]. *)
Definition quantize (rpe : F) : result F :=
  n <- round (fmul rpe (lit 2)) ;;
  n' <- of_int n ;;
  truediv n' (lit 2).

(** The Epley-style fallback [1 / (1 + 0.0333 * (reps - 1))]; it does not
    see the RPE. *)
Definition fallback_percent (reps : Z) : result F :=
  k <- of_int (reps - 1) ;;
  truediv (lit 1) (fadd (lit 1) (fmul (lit 0.0333) k)).

(** The chart as a mapping from the six quantized RPE values to a row
    that is total over reps 1..10. *)
Definition chart_row (q : F) : option (list Z) :=
  if feq q (lit 10) then Some [100; 95; 92; 89; 86; 84; 81; 79; 76; 74]
  else if feq q (lit 9.5) then Some [98; 94; 91; 88; 85; 82; 80; 77; 75; 72]
  else if feq q (lit 9) then Some [96; 92; 89; 86; 84; 81; 79; 76; 74; 71]
  else if feq q (lit 8.5) then Some [94; 89; 87; 84; 81; 79; 76; 74; 71; 69]
  else if feq q (lit 8) then Some [92; 87; 84; 81; 79; 76; 74; 71; 69; 66]
  else if feq q (lit 7.5) then Some [89; 84; 81; 79; 76; 74; 71; 69; 66; 64]
  else None.

Definition table_percent (row : list Z) (reps : Z) : result F :=
  v <- of_int (nth (Z.to_nat (reps - 1)) row 0) ;;
  truediv v (lit 100.0).

Definition lookup_percent_ref (rpe : F) (reps : Z) : result F :=
  q <- quantize rpe ;;
  match chart_row q with
  | Some row =>
      if (1 <=? reps) && (reps <=? 10)
      then table_percent row reps
      else fallback_percent reps
  | None => fallback_percent reps
  end.

End Reference.

(** The value the generator's docstring calls rounding to the nearest
    2.5 kg, on rationals: [round(x / 2.5) * 2.5]. *)
Definition round_to_2_5 (x : Q) : Q :=
  (inject_Z (round_half_even (x / 2.5)) * 2.5)%Q.

(** The four sets with the fixed numbering, reps and labels, for given
    weights. *)
Definition four_sets {F : Type} (w1 w2 w3 w4 : F) : list (WarmupSet F) :=
  [ {| set_number := 1; weight := w1; reps := 5;
       description := "50% of top set" |};
    {| set_number := 2; weight := w2; reps := 3;
       description := "70% of top set" |};
    {| set_number := 3; weight := w3; reps := 2;
       description := "80% of top set" |};
    {| set_number := 4; weight := w4; reps := 1;
       description := "90% of top set" |} ].

(** ** The request models and the warm-up handler of [main.py] *)

(** What a handler call ends in: a response body, the framework's
    validation error (status 422), an [HTTPException], or an exception that
    nothing catches. *)
Inductive outcome (A : Type) : Type :=
| Response (body : A)
| ValidationError
| HTTPException (status_code : Z) (detail : string)
| Uncaught (e : exn).

Arguments Response {A} body.
Arguments ValidationError {A}.
Arguments HTTPException {A} status_code detail.
Arguments Uncaught {A} e.

Section Api.

Context {F : Type} `{PyFloat F}.

(** [round_rpe], the validator of the [rpe] field in both request models. *)
Definition round_rpe (v : F) : result F :=
  n <- round (fmul v (lit 2)) ;;
  n' <- of_int n ;;
  rounded <- truediv n' (lit 2) ;;
  if flt rounded (lit 5) || flt (lit 10) rounded then
    Raise (ValueError "RPE must be between 5.0 and 10.0 (in 0.5 increments)")
  else
    Return rounded.

(** The field constraints [confloat(ge=5.0, le=10.0)], [confloat(gt=0)] and
    [conint(gt=0, le=20)]. *)
Definition rpe_field (v : F) : bool := fle (lit 5.0) v && fle v (lit 10.0).

Definition weight_field (v : F) : bool := flt (lit 0) v.

Definition reps_field (n : Z) : bool := (0 <? n) && (n <=? 20).

(** The fields [rpe], [weight], [reps] of a validated [WarmupRequest]. *)
Record WarmupRequest : Type := {
  req_rpe : F;
  req_weight : F;
  req_reps : Z
}.

(** The fields [weight], [rpe] of a validated [MaxRepsRequest]. *)
Record MaxRepsRequest : Type := {
  mreq_weight : F;
  mreq_rpe : F
}.

(** Validation of a request body: every field meets its constraint, then
    the validator replaces [rpe] by its rounding; a [ValueError] of the
    validator is a validation error. *)
Definition validate_WarmupRequest (rpe weight : F) (reps : Z)
  : outcome WarmupRequest :=
  if rpe_field rpe && weight_field weight && reps_field reps then
    match round_rpe rpe with
    | Return rounded =>
        Response {| req_rpe := rounded; req_weight := weight;
                    req_reps := reps |}
    | Raise (ValueError _) => ValidationError
    | Raise e => Uncaught e
    end
  else ValidationError.

Definition validate_MaxRepsRequest (weight rpe : F)
  : outcome MaxRepsRequest :=
  if weight_field weight && rpe_field rpe then
    match round_rpe rpe with
    | Return rounded =>
        Response {| mreq_weight := weight; mreq_rpe := rounded |}
    | Raise (ValueError _) => ValidationError
    | Raise e => Uncaught e
    end
  else ValidationError.

(** The handler [calculate_warmup]: the body [{"warmup_sets": ...}], or
    status 400 with [str(e)] for a [ValueError]; any other exception is not
    caught. *)
Definition calculate_warmup (req : WarmupRequest)
  : outcome (list (WarmupSet F)) :=
  match calculate_warmup_sets (req_rpe req) (req_weight req) (req_reps req) with
  | Return warmup_sets => Response warmup_sets
  | Raise (ValueError msg) => HTTPException 400 msg
  | Raise e => Uncaught e
  end.

(** A POST to [/api/calculate-warmup]: validation, then the handler. *)
Definition post_calculate_warmup (rpe weight : F) (reps : Z)
  : outcome (list (WarmupSet F)) :=
  match validate_WarmupRequest rpe weight reps with
  | Response req => calculate_warmup req
  | ValidationError => ValidationError
  | HTTPException status_code detail => HTTPException status_code detail
  | Uncaught e => Uncaught e
  end.

End Api.

Arguments WarmupRequest F : clear implicits.
Arguments MaxRepsRequest F : clear implicits.

(** * Properties *)

(** ** Generic facts: they hold whatever the arithmetic *)

Section Generic.

Context {F : Type} `{PyFloat F}.

Lemma bind_Return {A B : Type} (a : A) (k : A -> result B) :
  bind (Return a) k = k a.
Proof. reflexivity. Qed.

(** A row of the chart, read as a dict or by position. *)
Lemma dict_get_row (reps v1 v2 v3 v4 v5 v6 v7 v8 v9 v10 : Z) :
  dict_get Z.eqb reps
    [(1, v1); (2, v2); (3, v3); (4, v4); (5, v5);
     (6, v6); (7, v7); (8, v8); (9, v9); (10, v10)]
  = if (1 <=? reps) && (reps <=? 10)
    then Some (nth (Z.to_nat (reps - 1))
                 [v1; v2; v3; v4; v5; v6; v7; v8; v9; v10] 0)
    else None.
Proof.
  destruct (Z_lt_le_dec reps 1) as [Hlo | Hlo];
    [ | destruct (Z_lt_le_dec 10 reps) as [Hhi | Hhi] ].
  - replace (1 <=? reps) with false by (symmetry; apply Z.leb_gt; lia).
    cbn [andb dict_get].
    repeat match goal with
           | |- context [Z.eqb reps ?k] =>
               replace (Z.eqb reps k) with false
                 by (symmetry; apply Z.eqb_neq; lia)
           end.
    reflexivity.
  - replace (reps <=? 10) with false by (symmetry; apply Z.leb_gt; lia).
    rewrite andb_false_r. cbn [dict_get].
    repeat match goal with
           | |- context [Z.eqb reps ?k] =>
               replace (Z.eqb reps k) with false
                 by (symmetry; apply Z.eqb_neq; lia)
           end.
    reflexivity.
  - assert (Hc : reps = 1 \/ reps = 2 \/ reps = 3 \/ reps = 4 \/ reps = 5 \/
                 reps = 6 \/ reps = 7 \/ reps = 8 \/ reps = 9 \/ reps = 10)
      by lia.
    repeat destruct Hc as [-> | Hc]; try subst reps; reflexivity.
Qed.

(** The dict search of [_lookup_percent] finds exactly the rows of
    [chart_row], and the [None] sentinel selects the fallback. *)
Lemma lookup_percent_unfold (rpe : F) (reps : Z) :
  _lookup_percent rpe reps = lookup_percent_ref rpe reps.
Proof.
  unfold _lookup_percent, lookup_percent_ref, quantize.
  destruct (round (fmul rpe (lit 2))) as [n | e]; [ | reflexivity ].
  cbn [bind].
  destruct (of_int n) as [n' | e]; [ | reflexivity ].
  cbn [bind].
  destruct (truediv n' (lit 2)) as [q | e]; [ | reflexivity ].
  cbn [bind].
  unfold RPE_PERCENT_TABLE, chart_row. cbn [dict_get].
  repeat match goal with
         | |- context [feq q ?k] => destruct (feq q k)
         end;
    try reflexivity;
    rewrite dict_get_row;
    destruct ((1 <=? reps) && (reps <=? 10));
    cbn [bind]; unfold table_percent, fallback_percent; try reflexivity;
    match goal with
    | |- context [of_int ?v] => destruct (of_int v) as [v' | e']
    end; cbn [bind]; try reflexivity;
    match goal with
    | |- context [truediv ?a ?b] => destruct (truediv a b)
    end; reflexivity.
Qed.

(** Every value the search returns is the initial [best_reps] or one of
    the candidates. *)
Lemma predict_loop_range (weight rpe : F) (todo : list Z) :
  forall (min_diff : F) (best_reps n : Z),
    predict_loop weight rpe todo min_diff best_reps = Return n ->
    n = best_reps \/ In n todo.
Proof.
  induction todo as [ | r todo IH]; intros min_diff best_reps n Hn.
  - cbn in Hn. injection Hn as <-. now left.
  - cbn [predict_loop] in Hn.
    destruct (_lookup_percent rpe r) as [pct | e]; [ | discriminate ].
    cbn [bind] in Hn.
    destruct (if flt (lit 0) pct then truediv weight pct else of_int 0)
      as [est | e]; [ | discriminate ].
    cbn [bind] in Hn.
    destruct (flt _ min_diff).
    + apply IH in Hn. destruct Hn as [-> | Hin]; right; [now left | now right].
    + apply IH in Hn. destruct Hn as [-> | Hin]; [now left | right; now right].
Qed.

Lemma in_range_1_16 (n : Z) : In n (range 1 16) -> 1 <= n <= 15.
Proof.
  change (range 1 16) with [1; 2; 3; 4; 5; 6; 7; 8; 9; 10; 11; 12; 13; 14; 15].
  cbn [In]. intros Hin.
  repeat destruct Hin as [<- | Hin]; lia || contradiction.
Qed.

Lemma predict_max_reps_range (weight rpe : F) (n : Z) :
  predict_max_reps weight rpe = Return n -> 1 <= n <= 15.
Proof.
  unfold predict_max_reps.
  destruct (fle weight (lit 0)); [ discriminate | ].
  destruct (negb _); [ discriminate | ].
  intros Hn. apply predict_loop_range in Hn.
  destruct Hn as [-> | Hin]; [ lia | now apply in_range_1_16 ].
Qed.

(** Past its three checks the generator no longer reads [rpe] or [reps]. *)
Lemma calculate_warmup_sets_valid (rpe weight : F) (reps : Z) :
  fle (lit 5.0) rpe = true -> fle rpe (lit 10.0) = true ->
  fle weight (lit 0) = false ->
  1 <= reps <= 20 ->
  calculate_warmup_sets rpe weight reps
  = warmup_loop weight 1 warmup_percentages [].
Proof.
  intros H5 H10 Hw Hreps. unfold calculate_warmup_sets.
  rewrite H5, H10, Hw. cbn [andb negb].
  replace (1 <=? reps) with true by (symmetry; apply Z.leb_le; lia).
  replace (reps <=? 20) with true by (symmetry; apply Z.leb_le; lia).
  reflexivity.
Qed.

End Generic.

(** ** Rounding half to even on rationals *)

(** [round_half_even x] is within one half of [x], and an exact tie is
    resolved to the even neighbour. *)
Lemma round_half_even_spec (x : Q) :
  let n := Qnum x in
  let d := Z.pos (Qden x) in
  let z := round_half_even x in
  2 * n - d <= 2 * z * d <= 2 * n + d /\
  (2 * z * d = 2 * n - d -> Z.even z = true) /\
  (2 * z * d = 2 * n + d -> Z.even z = true).
Proof.
  intros n d z. subst z. unfold round_half_even. fold n. fold d.
  assert (Hd : 0 < d) by (subst d; lia).
  pose proof (Z.div_mod n d ltac:(lia)) as Hdm.
  pose proof (Z.mod_pos_bound n d Hd) as Hr.
  set (q := n / d) in *. set (r := n mod d) in *.
  destruct (Z.compare_spec (2 * r) d) as [He | Hl | Hg].
  - destruct (Z.even q) eqn:Hq.
    + repeat split; try nia; auto.
    + assert (Z.even (q + 1) = true).
      { rewrite Z.even_add, Hq. reflexivity. }
      repeat split; try nia; auto.
  - repeat split; try nia; intros; exfalso; nia.
  - repeat split; try nia; intros; exfalso; nia.
Qed.

Lemma round_half_even_mono (x y : Q) :
  (x <= y)%Q -> round_half_even x <= round_half_even y.
Proof.
  intros Hxy. unfold Qle in Hxy.
  destruct (round_half_even_spec x) as [[_ Hx] [_ Hxe]].
  destruct (round_half_even_spec y) as [[Hy _] [Hye _]].
  set (zx := round_half_even x) in *. set (zy := round_half_even y) in *.
  set (nx := Qnum x) in *. set (ny := Qnum y) in *.
  set (dx := Z.pos (Qden x)) in *. set (dy := Z.pos (Qden y)) in *.
  assert (Hdx : 0 < dx) by (subst dx; lia).
  assert (Hdy : 0 < dy) by (subst dy; lia).
  clearbody zx zy nx ny dx dy.
  destruct (Z_le_gt_dec zx zy) as [ | Hgt]; [ assumption | exfalso ].
  assert (H1 : 2 * zx * dx * dy <= 2 * nx * dy + dx * dy) by nia.
  assert (H2 : 2 * ny * dx - dx * dy <= 2 * zy * dy * dx) by nia.
  assert (H3 : 2 * (zx - zy) * (dx * dy) <= 2 * (dx * dy)) by nia.
  assert (HP : 0 < dx * dy) by (apply Z.mul_pos_pos; assumption).
  assert (H4 : zx = zy + 1).
  { destruct (Z_le_gt_dec zx (zy + 1)) as [ | Hbig]; [ lia | exfalso ].
    assert (0 < (zx - zy - 1) * (dx * dy)) by (apply Z.mul_pos_pos; lia).
    lia. }
  assert (H5 : 2 * zx * dx * dy = (2 * nx + dx) * dy).
  { subst zx. clear - Hxy H1 H2. lia. }
  assert (H6 : 2 * zy * dy * dx = (2 * ny - dy) * dx).
  { subst zx. clear - Hxy H1 H2. lia. }
  apply Z.mul_cancel_r in H5; [ | lia ].
  apply Z.mul_cancel_r in H6; [ | lia ].
  specialize (Hxe H5). specialize (Hye H6).
  rewrite H4, Z.even_add, Hye in Hxe. discriminate.
Qed.

Lemma Qdiv_le_compat_pos (x y c : Q) : (0 < c -> x <= y -> x / c <= y / c)%Q.
Proof.
  intros Hc Hxy. unfold Qdiv. apply Qmult_le_compat_r; [ assumption | ].
  apply Qlt_le_weak, Qinv_lt_0_compat, Hc.
Qed.

Lemma round_to_2_5_mono (x y : Q) :
  (x <= y)%Q -> (round_to_2_5 x <= round_to_2_5 y)%Q.
Proof.
  intros Hxy. unfold round_to_2_5.
  apply Qmult_le_compat_r; [ | discriminate ].
  rewrite <- Zle_Qle. apply round_half_even_mono.
  apply Qdiv_le_compat_pos; [ reflexivity | assumption ].
Qed.

Lemma table_value_bounds (v : Z) :
  64 <= v <= 100 -> (0 < inject_Z v / 100.0 <= 1)%Q.
Proof.
  intros Hv.
  assert (inject_Z 64 <= inject_Z v <= inject_Z 100)%Q
    by (split; rewrite <- Zle_Qle; lia).
  change (inject_Z 64) with 64%Q in *. change (inject_Z 100) with 100%Q in *.
  split.
  - apply Qlt_shift_div_l; lra.
  - apply Qle_shift_div_r; lra.
Qed.

Lemma fallback_value_bounds (k : Z) :
  0 <= k -> (0 < 1 / (1 + 0.0333 * inject_Z k) <= 1)%Q.
Proof.
  intros Hk.
  assert (0 <= inject_Z k)%Q
    by (change 0%Q with (inject_Z 0); rewrite <- Zle_Qle; lia).
  split.
  - apply Qlt_shift_div_l; lra.
  - apply Qle_shift_div_r; lra.
Qed.

(** The fallback's denominator [1 + 0.0333 * k] vanishes at no integer [k]. *)
Lemma fallback_denominator_nonzero (k : Z) :
  Qeq_bool (1 + 0.0333 * inject_Z k) 0 = false.
Proof.
  destruct (Qeq_bool _ _) eqn:E; [ exfalso | reflexivity ].
  apply Qeq_bool_eq in E. cbv [Qeq Qplus Qmult inject_Z Qnum Qden] in E. lia.
Qed.

(** ** Exact arithmetic: the lookup *)

Lemma exact_quantize (rpe : Q) :
  quantize (Fin rpe)
  = Return (Fin (inject_Z (round_half_even (rpe * 2)) / 2)).
Proof. reflexivity. Qed.

Lemma exact_fallback (reps : Z) :
  fallback_percent (F := xQ) reps
  = Return (Fin (1 / (1 + 0.0333 * inject_Z (reps - 1)))).
Proof.
  unfold fallback_percent. cbn [of_int exact bind fadd fmul lit truediv xQ_lift2 xQ_truediv].
  rewrite fallback_denominator_nonzero. reflexivity.
Qed.

Lemma exact_chart_row (q : xQ) (row : list Z) (reps : Z) :
  chart_row q = Some row -> 1 <= reps <= 10 ->
  exists v, 64 <= v <= 100 /\
            table_percent (F := xQ) row reps = Return (Fin (inject_Z v / 100.0)).
Proof.
  intros Hrow Hreps. unfold chart_row in Hrow.
  assert (Hc : reps = 1 \/ reps = 2 \/ reps = 3 \/ reps = 4 \/ reps = 5 \/
               reps = 6 \/ reps = 7 \/ reps = 8 \/ reps = 9 \/ reps = 10)
    by lia.
  repeat match type of Hrow with
         | (if ?b then _ else _) = _ => destruct b
         end;
    try discriminate; injection Hrow as <-;
    repeat destruct Hc as [-> | Hc]; try subst reps;
    (eexists; split; [ | reflexivity ]; simpl; lia).
Qed.

Lemma exact_lookup (rpe : Q) (reps : Z) :
  (exists v, 64 <= v <= 100 /\ 1 <= reps <= 10 /\
             _lookup_percent (Fin rpe) reps
             = Return (Fin (inject_Z v / 100.0)))
  \/ _lookup_percent (Fin rpe) reps
     = Return (Fin (1 / (1 + 0.0333 * inject_Z (reps - 1)))).
Proof.
  rewrite lookup_percent_unfold. unfold lookup_percent_ref.
  rewrite exact_quantize. cbn [bind].
  destruct (chart_row _) as [row | ] eqn:Hrow.
  - destruct ((1 <=? reps) && (reps <=? 10)) eqn:Hin.
    + apply andb_prop in Hin. destruct Hin as [Hlo Hhi].
      apply Z.leb_le in Hlo, Hhi.
      destruct (exact_chart_row _ _ reps Hrow (conj Hlo Hhi)) as [v [Hv Hp]].
      left. exists v. repeat split; try lia. exact Hp.
    + right. apply exact_fallback.
  - right. apply exact_fallback.
Qed.

Lemma exact_lookup_positive (rpe : Q) (reps : Z) :
  1 <= reps ->
  exists p, _lookup_percent (Fin rpe) reps = Return (Fin p) /\ (0 < p <= 1)%Q.
Proof.
  intros Hreps.
  destruct (exact_lookup rpe reps) as [[v [Hv [_ Hp]]] | Hp].
  - eexists. split; [ exact Hp | ]. now apply table_value_bounds.
  - eexists. split; [ exact Hp | ]. apply fallback_value_bounds. lia.
Qed.

Lemma Qlt_bool_true (x y : Q) : (x < y)%Q -> Qlt_bool x y = true.
Proof.
  intros Hlt. unfold Qlt_bool. destruct (Qle_bool y x) eqn:E; [ | reflexivity ].
  apply Qle_bool_iff in E. exfalso. apply (Qlt_not_le _ _ Hlt E).
Qed.

Lemma Qlt_bool_false (x y : Q) : (y <= x)%Q -> Qlt_bool x y = false.
Proof.
  intros Hle. unfold Qlt_bool.
  apply (proj2 (Qle_bool_iff y x)) in Hle. rewrite Hle. reflexivity.
Qed.

Lemma Qle_bool_false (x y : Q) : (y < x)%Q -> Qle_bool x y = false.
Proof.
  intros Hlt. destruct (Qle_bool x y) eqn:E; [ | reflexivity ].
  apply Qle_bool_iff in E. exfalso. apply (Qlt_not_le _ _ Hlt E).
Qed.

Lemma Qeq_bool_false_pos (p : Q) : (0 < p)%Q -> Qeq_bool p 0 = false.
Proof.
  intros Hp. destruct (Qeq_bool p 0) eqn:E; [ | reflexivity ].
  apply Qeq_bool_eq in E. rewrite E in Hp. discriminate.
Qed.

(** One candidate of the search, in exact arithmetic: the recomputed weight
    is the input weight, the residual is zero. *)
Lemma exact_residual (w p : Q) :
  (0 < p)%Q -> (Qabs (w / p * p - w) == 0)%Q.
Proof.
  intros Hp.
  assert (Hz : (w / p * p - w == 0)%Q) by (field; lra).
  rewrite Hz. reflexivity.
Qed.

Lemma exact_predict_step (w rpe : Q) (r : Z) (todo : list Z) (min_diff : xQ) (best : Z) :
  1 <= r ->
  exists d, (d == 0)%Q /\
    predict_loop (Fin w) (Fin rpe) (r :: todo) min_diff best
    = if flt (Fin d) min_diff
      then predict_loop (Fin w) (Fin rpe) todo (Fin d) r
      else predict_loop (Fin w) (Fin rpe) todo min_diff best.
Proof.
  intros Hr.
  destruct (exact_lookup_positive rpe r Hr) as [p [Hp [Hpos _]]].
  exists (Qabs (w / p * p - w)). split; [ now apply exact_residual | ].
  cbn [predict_loop]. rewrite Hp. cbn [bind].
  cbn [flt lit exact xQ_lt truediv xQ_truediv].
  rewrite (Qlt_bool_true _ _ Hpos), (Qeq_bool_false_pos _ Hpos).
  reflexivity.
Qed.

Lemma exact_predict_loop_settled (w rpe : Q) (todo : list Z) :
  Forall (fun r => 1 <= r) todo ->
  forall (m : Q) (best : Z), (m == 0)%Q ->
    predict_loop (Fin w) (Fin rpe) todo (Fin m) best = Return best.
Proof.
  induction 1 as [ | r todo Hr _ IH]; intros m best Hm; [ reflexivity | ].
  destruct (exact_predict_step w rpe r todo (Fin m) best Hr) as [d [Hd ->]].
  cbn [flt exact xQ_lt].
  rewrite Qlt_bool_false by (rewrite Hd, Hm; apply Qle_refl).
  now apply IH.
Qed.

Lemma range_1_16_pos : Forall (fun r => 1 <= r) (range 1 16).
Proof.
  change (range 1 16) with [1; 2; 3; 4; 5; 6; 7; 8; 9; 10; 11; 12; 13; 14; 15].
  repeat constructor; lia.
Qed.

Lemma exact_predict_max_reps (w rpe : Q) :
  (0 < w)%Q -> (5 <= rpe <= 10)%Q ->
  predict_max_reps (Fin w) (Fin rpe) = Return 1.
Proof.
  intros Hw [H5 H10]. unfold predict_max_reps.
  cbn [fle lit exact xQ_le].
  rewrite (Qle_bool_false _ _ Hw).
  replace (Qle_bool 5.0 rpe) with true
    by (symmetry; apply Qle_bool_iff; lra).
  replace (Qle_bool rpe 10.0) with true
    by (symmetry; apply Qle_bool_iff; lra).
  cbn [andb negb].
  change (range 1 16) with (1 :: range 2 16).
  destruct (exact_predict_step w rpe 1 (range 2 16) inf 1 ltac:(lia))
    as [d [Hd ->]].
  cbn [flt inf exact xQ_lt].
  apply exact_predict_loop_settled; [ | assumption ].
  pose proof range_1_16_pos as Hall.
  change (range 1 16) with (1 :: range 2 16) in Hall.
  now inversion Hall.
Qed.

(** ** Exact arithmetic: the two entry points *)

Lemma exact_warmup_loop (w : Q) :
  warmup_loop (Fin w) 1 warmup_percentages []
  = Return (four_sets (Fin (round_to_2_5 (w * 0.5)))
                      (Fin (round_to_2_5 (w * 0.7)))
                      (Fin (round_to_2_5 (w * 0.8)))
                      (Fin (round_to_2_5 (w * 0.9)))).
Proof. reflexivity. Qed.

Lemma exact_calculate_warmup_sets (rpe w : Q) (reps : Z) :
  calculate_warmup_sets (Fin rpe) (Fin w) reps
  = if negb (Qle_bool 5.0 rpe && Qle_bool rpe 10.0) then
      Raise (ValueError "RPE must be 5.0–10.0")
    else if Qle_bool w 0 then
      Raise (ValueError "Weight must be positive")
    else if negb ((1 <=? reps) && (reps <=? 20)) then
      Raise (ValueError "Reps must be 1–20")
    else
      Return (four_sets (Fin (round_to_2_5 (w * 0.5)))
                        (Fin (round_to_2_5 (w * 0.7)))
                        (Fin (round_to_2_5 (w * 0.8)))
                        (Fin (round_to_2_5 (w * 0.9)))).
Proof. reflexivity. Qed.

Lemma rpe_check_iff (rpe : Q) :
  negb (Qle_bool 5.0 rpe && Qle_bool rpe 10.0) = false <-> (5 <= rpe <= 10)%Q.
Proof.
  rewrite negb_false_iff, andb_true_iff, !Qle_bool_iff.
  split; intros [? ?]; split; lra.
Qed.

Lemma weight_check_iff (w : Q) : Qle_bool w 0 = false <-> (0 < w)%Q.
Proof.
  split.
  - intros E. apply Qnot_le_lt. intros Hle.
    apply (proj2 (Qle_bool_iff w 0)) in Hle. congruence.
  - apply Qle_bool_false.
Qed.

Lemma reps_check_iff (reps : Z) :
  negb ((1 <=? reps) && (reps <=? 20)) = false <-> 1 <= reps <= 20.
Proof.
  rewrite negb_false_iff, andb_true_iff, !Z.leb_le. reflexivity.
Qed.

Lemma exact_calculate_invalid_iff (rpe w : Q) (reps : Z) :
  is_InvalidInput (calculate_warmup_sets (Fin rpe) (Fin w) reps)
  <-> (~ (5 <= rpe <= 10)%Q \/ (w <= 0)%Q \/ ~ (1 <= reps <= 20)).
Proof.
  rewrite exact_calculate_warmup_sets.
  destruct (negb (Qle_bool 5.0 rpe && Qle_bool rpe 10.0)) eqn:Er.
  - split; [ intros _ | intros _; eexists; reflexivity ].
    left. rewrite <- rpe_check_iff. congruence.
  - apply rpe_check_iff in Er.
    destruct (Qle_bool w 0) eqn:Ew.
    + split; [ intros _ | intros _; eexists; reflexivity ].
      right; left. now apply Qle_bool_iff.
    + apply weight_check_iff in Ew.
      destruct (negb ((1 <=? reps) && (reps <=? 20))) eqn:Ep.
      * split; [ intros _ | intros _; eexists; reflexivity ].
        right; right. rewrite <- reps_check_iff. congruence.
      * apply reps_check_iff in Ep.
        split.
        -- intros [msg Hmsg]. discriminate.
        -- intros [Hr | [Hw | Hp]]; exfalso; [ tauto | lra | tauto ].
Qed.

Lemma exact_calculate_total (rpe w : Q) (reps : Z) :
  is_InvalidInput (calculate_warmup_sets (Fin rpe) (Fin w) reps)
  \/ returns (calculate_warmup_sets (Fin rpe) (Fin w) reps).
Proof.
  rewrite exact_calculate_warmup_sets.
  destruct (negb (Qle_bool 5.0 rpe && Qle_bool rpe 10.0));
    [ left; eexists; reflexivity | ].
  destruct (Qle_bool w 0); [ left; eexists; reflexivity | ].
  destruct (negb ((1 <=? reps) && (reps <=? 20)));
    [ left; eexists; reflexivity | right; eexists; reflexivity ].
Qed.

Lemma exact_predict_invalid_iff (w rpe : Q) :
  is_InvalidInput (predict_max_reps (Fin w) (Fin rpe))
  <-> ((w <= 0)%Q \/ ~ (5 <= rpe <= 10)%Q).
Proof.
  destruct (Qle_bool w 0) eqn:Ew.
  - unfold predict_max_reps. cbn [fle lit exact xQ_le]. rewrite Ew.
    split; [ intros _ | intros _; eexists; reflexivity ].
    left. now apply Qle_bool_iff.
  - destruct (negb (Qle_bool 5.0 rpe && Qle_bool rpe 10.0)) eqn:Er.
    + unfold predict_max_reps. cbn [fle lit exact xQ_le]. rewrite Ew, Er.
      split; [ intros _ | intros _; eexists; reflexivity ].
      right. rewrite <- rpe_check_iff. congruence.
    + apply weight_check_iff in Ew. apply rpe_check_iff in Er.
      rewrite (exact_predict_max_reps w rpe Ew Er).
      split.
      * intros [msg Hmsg]. discriminate.
      * intros [Hw | Hr]; exfalso; [ lra | tauto ].
Qed.

Lemma exact_predict_total (w rpe : Q) :
  is_InvalidInput (predict_max_reps (Fin w) (Fin rpe))
  \/ returns (predict_max_reps (Fin w) (Fin rpe)).
Proof.
  destruct (Qle_bool w 0) eqn:Ew.
  - left. unfold predict_max_reps. cbn [fle lit exact xQ_le]. rewrite Ew.
    eexists; reflexivity.
  - destruct (negb (Qle_bool 5.0 rpe && Qle_bool rpe 10.0)) eqn:Er.
    + left. unfold predict_max_reps. cbn [fle lit exact xQ_le]. rewrite Ew, Er.
      eexists; reflexivity.
    + apply weight_check_iff in Ew. apply rpe_check_iff in Er.
      right. rewrite (exact_predict_max_reps w rpe Ew Er). eexists; reflexivity.
Qed.

(** ** Binary64: the lookup returns chart or fallback values only *)
Lemma b64_chart_row_cases (q : float) (row : list Z) :
  chart_row q = Some row ->
  In row [ [100; 95; 92; 89; 86; 84; 81; 79; 76; 74];
           [98; 94; 91; 88; 85; 82; 80; 77; 75; 72];
           [96; 92; 89; 86; 84; 81; 79; 76; 74; 71];
           [94; 89; 87; 84; 81; 79; 76; 74; 71; 69];
           [92; 87; 84; 81; 79; 76; 74; 71; 69; 66];
           [89; 84; 81; 79; 76; 74; 71; 69; 66; 64] ].
Proof.
  unfold chart_row.
  repeat match goal with
         | |- (if ?b then _ else _) = _ -> _ => destruct b
         end; intros Hrow; try discriminate; injection Hrow as <-;
    cbn [In]; tauto.
Qed.

Lemma b64_lookup_positive (rpe : float) (r : Z) (p : float) :
  1 <= r <= 15 ->
  _lookup_percent rpe r = Return p ->
  flt (lit 0) p = true /\ fle p (lit 1) = true.
Proof.
  intros Hr. rewrite lookup_percent_unfold. unfold lookup_percent_ref.
  destruct (quantize rpe) as [q | e]; [ | discriminate ]. cbn [bind].
  assert (Hc : r = 1 \/ r = 2 \/ r = 3 \/ r = 4 \/ r = 5 \/ r = 6 \/ r = 7 \/
               r = 8 \/ r = 9 \/ r = 10 \/ r = 11 \/ r = 12 \/ r = 13 \/
               r = 14 \/ r = 15) by lia.
  destruct (chart_row q) as [row | ] eqn:Hrow.
  - apply b64_chart_row_cases in Hrow. cbn [In] in Hrow.
    repeat destruct Hrow as [<- | Hrow]; try contradiction;
      repeat destruct Hc as [-> | Hc]; try subst r;
      vm_compute; intros Hp; injection Hp as <-; split; reflexivity.
  - repeat destruct Hc as [-> | Hc]; try subst r;
      vm_compute; intros Hp; injection Hp as <-; split; reflexivity.
Qed.

(** * The claims *)

(** C1 (amended).  In exact arithmetic [(weight / pct) * pct] is [weight]
    for every candidate, so for every weight > 0 and RPE in [5, 10] the
    search keeps its first candidate and [predict_max_reps] returns 1.  In
    binary64 the round trip leaves a residual at some candidates, so the
    value returned is some rep count in 1..15, not always 1. *)
Theorem predict_max_reps_exact_one_binary64_in_range
    (w rpe : Q) (fw frpe : float) (n : Z) :
  (0 < w)%Q -> (5 <= rpe <= 10)%Q ->
  predict_max_reps fw frpe = Return n ->
  predict_max_reps (Fin w) (Fin rpe) = Return 1 /\ 1 <= n <= 15.
Proof.
  intros Hw Hrpe Hn. split.
  - now apply exact_predict_max_reps.
  - exact (predict_max_reps_range fw frpe n Hn).
Qed.

Lemma predict_max_reps_exact_one_binary64_in_range_witness :
  predict_max_reps (Fin 100) (Fin 9) = Return 1 /\ 1 <= 3 <= 15.
Proof.
  apply (predict_max_reps_exact_one_binary64_in_range
           100 9 (lit 60) (lit 8) 3).
  - reflexivity.
  - split; discriminate.
  - vm_compute. reflexivity.
Defined.

(** C1 as stated fails in binary64: at weight 60 and RPE 8 the residual of
    [60 / 0.92 * 0.92] is not zero, and [predict_max_reps] returns 3. *)
Lemma predict_max_reps_binary64_not_always_one :
  ~ (forall w rpe : float,
        flt (lit 0) w = true ->
        fle (lit 5.0) rpe = true -> fle rpe (lit 10.0) = true ->
        predict_max_reps w rpe = Return 1).
Proof.
  intros Hall.
  specialize (Hall (lit 60) (lit 8) eq_refl eq_refl eq_refl).
  vm_compute in Hall. discriminate Hall.
Qed.

(** C2.  For every rpe and every integer reps, [_lookup_percent] equals the
    reference definition: quantize to [round(rpe*2)/2]; on one of the six
    chart RPEs with reps in 1..10 return the chart entry over 100; otherwise
    return the fallback [1/(1 + 0.0333*(reps - 1))], which does not depend
    on the RPE.  This holds at every instance of the arithmetic. *)
Theorem lookup_percent_refines_reference
    {F : Type} `{PyFloat F} (rpe : F) (reps : Z) :
  _lookup_percent rpe reps = lookup_percent_ref rpe reps.
Proof. apply lookup_percent_unfold. Qed.

(** C3 (code evaluated at the documented example).  For rpe 8, weight 140,
    reps 5 the generator returns the weights 70.0, 97.5, 112.5, 125.0, in
    binary64 and in exact arithmetic alike, not the documented
    70.0, 98.0, 112.0, 126.0. *)
Theorem calculate_warmup_sets_documented_example :
  calculate_warmup_sets (F := float) (lit 8) (lit 140) 5
  = Return (four_sets 70 97.5 112.5 125)%float /\
  calculate_warmup_sets (F := xQ) (lit 8) (lit 140) 5
  = Return (four_sets (Fin 70.0) (Fin 97.5) (Fin 112.5) (Fin 125.0)) /\
  (four_sets 70 97.5 112.5 125 <> four_sets 70 98 112 126)%float.
Proof.
  repeat split; try (vm_compute; reflexivity).
  intros Heq. vm_compute in Heq. discriminate Heq.
Qed.





(** C7.  For any two valid pairs (rpe1, reps1) and (rpe2, reps2) and the
    same weight > 0, [calculate_warmup_sets] returns the same sets: past its
    checks the result depends on the weight only.  This holds at every
    instance of the arithmetic. *)
Theorem warmup_sets_depend_only_on_weight
    {F : Type} `{PyFloat F} (w rpe1 rpe2 : F) (reps1 reps2 : Z) :
  fle w (lit 0) = false ->
  fle (lit 5.0) rpe1 = true -> fle rpe1 (lit 10.0) = true ->
  1 <= reps1 <= 20 ->
  fle (lit 5.0) rpe2 = true -> fle rpe2 (lit 10.0) = true ->
  1 <= reps2 <= 20 ->
  calculate_warmup_sets rpe1 w reps1 = calculate_warmup_sets rpe2 w reps2.
Proof.
  intros Hw H51 H101 Hr1 H52 H102 Hr2.
  rewrite (calculate_warmup_sets_valid rpe1 w reps1) by assumption.
  rewrite (calculate_warmup_sets_valid rpe2 w reps2) by assumption.
  reflexivity.
Qed.

Lemma warmup_sets_depend_only_on_weight_witness :
  calculate_warmup_sets (F := float) (lit 8) (lit 140) 5
  = calculate_warmup_sets (F := float) (lit 6.5) (lit 140) 12.
Proof.
  apply (warmup_sets_depend_only_on_weight
           (F := float) (lit 140) (lit 8) (lit 6.5) 5 12);
    try reflexivity; lia.
Defined.

(** C8.  The quantization [round(rpe*2)/2] resolves the ties at the 0.25
    boundaries to the even multiple of 0.5.  For every reps in 1..10:
    7.25 becomes 7.0, which is no key of the chart, and the lookup returns
    the fallback [1/(1 + 0.0333*(reps - 1))]; 7.75 becomes 8.0 and the
    lookup returns the chart entry of row 8 over 100. *)
Theorem rpe_quantization_ties_to_even (reps : Z) :
  1 <= reps <= 10 ->
  quantize (F := float) (lit 7.25) = Return (lit 7) /\
  dict_get feq (lit (F := float) 7) RPE_PERCENT_TABLE = None /\
  (exists p : float,
     _lookup_percent (lit 7.25) reps = Return p /\
     fallback_percent reps = Return p) /\
  quantize (F := float) (lit 7.75) = Return (lit 8) /\
  (exists (row : list (Z * Z)) (v : Z) (p : float),
     dict_get feq (lit (F := float) 8) RPE_PERCENT_TABLE = Some row /\
     dict_get Z.eqb reps row = Some v /\
     _lookup_percent (lit 7.75) reps = Return p /\
     (v' <- of_int v ;; truediv v' (lit 100.0)) = Return p).
Proof.
  intros Hreps.
  assert (Hc : reps = 1 \/ reps = 2 \/ reps = 3 \/ reps = 4 \/ reps = 5 \/
               reps = 6 \/ reps = 7 \/ reps = 8 \/ reps = 9 \/ reps = 10)
    by lia.
  split; [ vm_compute; reflexivity | ].
  split; [ vm_compute; reflexivity | ].
  split; [ | split; [ vm_compute; reflexivity | ] ].
  - repeat destruct Hc as [-> | Hc]; try subst reps;
      eexists; split; vm_compute; reflexivity.
  - repeat destruct Hc as [-> | Hc]; try subst reps;
      do 3 eexists;
      (split; [ vm_compute; reflexivity | ]);
      (split; [ vm_compute; reflexivity | ]);
      split; vm_compute; reflexivity.
Qed.

Lemma rpe_quantization_ties_to_even_witness :
  quantize (F := float) (lit 7.25) = Return (lit 7) /\
  dict_get feq (lit (F := float) 7) RPE_PERCENT_TABLE = None /\
  (exists p : float,
     _lookup_percent (lit 7.25) 3 = Return p /\
     fallback_percent 3 = Return p) /\
  quantize (F := float) (lit 7.75) = Return (lit 8) /\
  (exists (row : list (Z * Z)) (v : Z) (p : float),
     dict_get feq (lit (F := float) 8) RPE_PERCENT_TABLE = Some row /\
     dict_get Z.eqb 3 row = Some v /\
     _lookup_percent (lit 7.75) 3 = Return p /\
     (v' <- of_int v ;; truediv v' (lit 100.0)) = Return p).
Proof.
  apply (rpe_quantization_ties_to_even 3). lia.
Defined.

(** C9.  A warm-up weight can be 0 and consecutive warm-up weights can be
    equal although the input weight is positive: for weight 2 and any valid
    rpe and reps the generator returns the weights 0.0, 2.5, 2.5, 2.5. *)
Theorem calculate_warmup_sets_weight_two (rpe : float) (reps : Z) :
  fle (lit 5.0) rpe = true -> fle rpe (lit 10.0) = true ->
  1 <= reps <= 20 ->
  calculate_warmup_sets rpe (lit 2) reps
  = Return (four_sets 0 2.5 2.5 2.5)%float.
Proof.
  intros H5 H10 Hreps.
  rewrite (calculate_warmup_sets_valid rpe (lit 2) reps)
    by (assumption || reflexivity).
  vm_compute. reflexivity.
Qed.

Lemma calculate_warmup_sets_weight_two_witness :
  calculate_warmup_sets (F := float) (lit 8) (lit 2) 5
  = Return (four_sets 0 2.5 2.5 2.5)%float.
Proof.
  apply (calculate_warmup_sets_weight_two (lit 8) 5);
    try reflexivity; lia.
Defined.

(** C10.  The lookup is not monotone in reps across the edge of the chart:
    at RPE 10, ten reps give the chart value 0.74 and eleven reps give the
    fallback [1/(1 + 0.0333*10)], about 0.7502, which is larger.  The same
    holds in binary64 and in exact arithmetic. *)
Theorem lookup_percent_not_monotone_in_reps :
  (exists p10 p11 : float,
     _lookup_percent (lit 10) 10 = Return p10 /\
     p10 = lit 0.74 /\
     _lookup_percent (lit 10) 11 = Return p11 /\
     fallback_percent 11 = Return p11 /\
     flt p10 p11 = true) /\
  (exists p10 p11 : Q,
     _lookup_percent (Fin 10) 10 = Return (Fin p10) /\
     (p10 == 0.74)%Q /\
     _lookup_percent (Fin 10) 11 = Return (Fin p11) /\
     (p11 == 1 / (1 + 0.0333 * 10))%Q /\
     (p10 < p11)%Q).
Proof.
  split.
  - do 2 eexists. repeat split; vm_compute; reflexivity.
  - do 2 eexists.
    split; [ vm_compute; reflexivity | ].
    split; [ vm_compute; reflexivity | ].
    split; [ vm_compute; reflexivity | ].
    split; vm_compute; reflexivity.
Qed.

(** * Further properties of the code *)

(** ** Binary64: a double between 5.0 and 10.0 *)

Lemma digits2_pos_size (p : positive) : digits2_pos p = Pos.size p.
Proof. induction p; cbn; congruence. Qed.

Lemma digits2_pos_53 (m : positive) :
  digits2_pos m = 53%positive ->
  4503599627370496 <= Z.pos m < 9007199254740992.
Proof.
  rewrite digits2_pos_size. intros Hs.
  pose proof (Pos.size_gt m) as Hgt. pose proof (Pos.size_le m) as Hle.
  rewrite Hs in Hgt, Hle.
  assert (E : (2 ^ 53 = 9007199254740992)%positive) by (vm_compute; reflexivity).
  rewrite E in Hgt, Hle. clear Hs E.
  apply Pos2Z.pos_lt_pos in Hgt. apply Pos2Z.pos_le_pos in Hle.
  lia.
Qed.

Lemma b64_five : Prim2SF (lit (F := float) 5.0) = S754_finite false 5629499534213120 (-50).
Proof. vm_compute. reflexivity. Qed.
Lemma b64_ten : Prim2SF (lit (F := float) 10.0) = S754_finite false 5629499534213120 (-49).
Proof. vm_compute. reflexivity. Qed.
Lemma b64_two : Prim2SF (lit (F := float) 2) = S754_finite false 4503599627370496 (-51).
Proof. vm_compute. reflexivity. Qed.

Lemma compare_cont_Eq_le (p q : positive) :
  Pos.compare_cont Eq p q <> Gt -> Z.pos p <= Z.pos q.
Proof.
  rewrite Pos.compare_cont_spec.
  change (Pos.compare p q) with (Z.compare (Z.pos p) (Z.pos q)).
  unfold Z.le. destruct (Z.pos p ?= Z.pos q); cbn; congruence.
Qed.

(** A double between 5.0 and 10.0. *)
Lemma b64_rpe_in_range (x : float) :
  fle (lit 5.0) x = true -> fle x (lit 10.0) = true ->
  exists (m : positive) (e : Z),
    Prim2SF x = S754_finite false m e /\
    digits2_pos m = 53%positive /\
    ((e = -50 /\ 5629499534213120 <= Z.pos m) \/
     (e = -49 /\ Z.pos m <= 5629499534213120)).
Proof.
  cbn [fle binary64]. rewrite !leb_spec, b64_five, b64_ten.
  pose proof (Prim2SF_valid x) as Hvalid.
  destruct (Prim2SF x) as [s | s | | s m e].
  - intros H5. discriminate H5.
  - unfold SFleb, SFcompare. destruct s; intros H5 H10; discriminate.
  - intros H5. discriminate H5.
  - unfold SFleb, SFcompare. destruct s; [ intros H5; discriminate H5 | ].
    intros H5 H10. exists m, e. split; [ reflexivity | ].
    assert (He : (e = -50 /\ Pos.compare_cont Eq 5629499534213120 m <> Gt) \/
                 (e = -49 /\ Pos.compare_cont Eq m 5629499534213120 <> Gt)).
    { destruct (Z.compare_spec (-50) e) as [E1 | E1 | E1]; try discriminate H5.
      - left. split; [ lia | ]. intros Hgt. rewrite Hgt in H5. discriminate H5.
      - destruct (Z.compare_spec e (-49)) as [E2 | E2 | E2]; try discriminate H10.
        + right. split; [ assumption | ].
          intros Hgt. rewrite Hgt in H10. discriminate H10.
        + exfalso. clear - E1 E2. lia. }
    cbn [valid_binary] in Hvalid. unfold bounded, canonical_mantissa in Hvalid.
    apply andb_prop in Hvalid. destruct Hvalid as [Hcanon _].
    apply Z.eqb_eq in Hcanon. unfold fexp, emin in Hcanon.
    change prec with 53 in Hcanon. change emax with 1024 in Hcanon.
    assert (Hd : Z.pos (digits2_pos m) = 53).
    { clear - Hcanon He. destruct He as [[-> _] | [-> _]]; lia. }
    split; [ congruence | ].
    destruct He as [[-> Hc] | [-> Hc]]; [ left | right ];
      (split; [ reflexivity | ]); apply compare_cont_Eq_le in Hc; exact Hc.
Qed.
Lemma SFmul_two_exact (m : positive) (e : Z) :
  digits2_pos m = 53%positive -> e = -50 \/ e = -49 ->
  SFmul prec emax (S754_finite false m e)
        (S754_finite false 4503599627370496 (-51))
  = S754_finite false m (e + 1).
Proof.
  intros Hd He. cbn [SFmul xorb].
  rewrite Pos.mul_comm.
  cbn [Pos.mul].
  unfold binary_round_aux, shr_fexp.
  cbn [Zdigits2 digits2_pos]. rewrite Hd.
  destruct He as [-> | ->]; cbv -[digits2_pos]; rewrite Hd; vm_compute; reflexivity.
Qed.

Lemma b64_round_double (x : float) :
  fle (lit 5.0) x = true -> fle x (lit 10.0) = true ->
  exists n : Z, 10 <= n <= 20 /\ round (fmul x (lit 2)) = Return n.
Proof.
  intros H5 H10.
  destruct (b64_rpe_in_range x H5 H10) as [m [e [Hx [Hd He]]]].
  pose proof (digits2_pos_53 m Hd) as Hm.
  assert (Hmul : Prim2SF (fmul x (lit 2)) = S754_finite false m (e + 1)).
  { cbn [fmul binary64]. rewrite mul_spec, Hx, b64_two.
    apply SFmul_two_exact; [ exact Hd | ]. tauto. }
  cbn [round binary64]. unfold b64_round, F2Q. rewrite Hmul.
  destruct He as [[-> Hlo] | [-> Hhi]]; cbn [Z.add Z.pos_sub Pos.pred_double Z.opp].
  - eexists. split; [ | reflexivity ].
    split.
    + change 10 with (round_half_even 10). apply round_half_even_mono.
      unfold Qle. cbn [Qnum Qden]. lia.
    + change 20 with (round_half_even 20). apply round_half_even_mono.
      unfold Qle. cbn [Qnum Qden]. lia.
  - eexists. split; [ | reflexivity ].
    split.
    + change 10 with (round_half_even 10). apply round_half_even_mono.
      unfold Qle. cbn [Qnum Qden]. lia.
    + change 20 with (round_half_even 20). apply round_half_even_mono.
      unfold Qle. cbn [Qnum Qden]. lia.
Qed.

Ltac split_or H :=
  repeat match type of H with
         | _ \/ _ => destruct H as [H | H]
         end.

Lemma b64_round_on_grid (n : Z) :
  10 <= n <= 20 ->
  round (fmul (lit (F := float) (n # 2)) (lit 2)) = Return n.
Proof.
  intros Hn.
  assert (Hc : n = 10 \/ n = 11 \/ n = 12 \/ n = 13 \/ n = 14 \/ n = 15 \/
               n = 16 \/ n = 17 \/ n = 18 \/ n = 19 \/ n = 20) by lia.
  split_or Hc; subst n; vm_compute; reflexivity.
Qed.

(** A double in [5, 10] is looked up as the grid point it rounds to. *)
Lemma b64_lookup_on_grid (x : float) :
  fle (lit 5.0) x = true -> fle x (lit 10.0) = true ->
  exists n : Z, 10 <= n <= 20 /\
    round (fmul x (lit 2)) = Return n /\
    forall reps : Z,
      _lookup_percent x reps = _lookup_percent (lit (n # 2)) reps.
Proof.
  intros H5 H10.
  destruct (b64_round_double x H5 H10) as [n [Hn Hround]].
  exists n. split; [ exact Hn | ]. split; [ exact Hround | ].
  intros reps. unfold _lookup_percent.
  rewrite Hround, (b64_round_on_grid n Hn). reflexivity.
Qed.

Lemma b64_grid_lookup_returns (n r : Z) :
  10 <= n <= 20 -> 1 <= r <= 15 ->
  exists p : float,
    _lookup_percent (lit (n # 2)) r = Return p /\
    PrimFloat.ltb (lit 0) p = true /\
    PrimFloat.leb p (lit 1) = true /\
    PrimFloat.eqb p PrimFloat.zero = false.
Proof.
  intros Hn Hr.
  assert (Hc : n = 10 \/ n = 11 \/ n = 12 \/ n = 13 \/ n = 14 \/ n = 15 \/
               n = 16 \/ n = 17 \/ n = 18 \/ n = 19 \/ n = 20) by lia.
  assert (Hd : r = 1 \/ r = 2 \/ r = 3 \/ r = 4 \/ r = 5 \/ r = 6 \/ r = 7 \/
               r = 8 \/ r = 9 \/ r = 10 \/ r = 11 \/ r = 12 \/ r = 13 \/
               r = 14 \/ r = 15) by lia.
  split_or Hc; subst n; split_or Hd; subst r;
    (eexists; split; [ vm_compute; reflexivity | ];
     repeat split; vm_compute; reflexivity).
Qed.

Lemma b64_lookup_returns (x : float) (r : Z) :
  fle (lit 5.0) x = true -> fle x (lit 10.0) = true -> 1 <= r <= 15 ->
  exists p : float,
    _lookup_percent x r = Return p /\
    PrimFloat.ltb (lit 0) p = true /\
    PrimFloat.leb p (lit 1) = true /\
    PrimFloat.eqb p PrimFloat.zero = false.
Proof.
  intros H5 H10 Hr.
  destruct (b64_lookup_on_grid x H5 H10) as [n [Hn [_ Hgrid]]].
  rewrite Hgrid. now apply b64_grid_lookup_returns.
Qed.

Lemma b64_predict_loop_total (w x : float) (todo : list Z) :
  fle (lit 5.0) x = true -> fle x (lit 10.0) = true ->
  Forall (fun r => 1 <= r <= 15) todo ->
  forall (min_diff : float) (best : Z),
    exists n : Z, predict_loop w x todo min_diff best = Return n.
Proof.
  intros H5 H10 Hall.
  induction Hall as [ | r todo Hr _ IH]; intros min_diff best.
  - exists best. reflexivity.
  - destruct (b64_lookup_returns x r H5 H10 Hr) as [p [Hp [Hpos [_ Hnz]]]].
    cbn [predict_loop]. rewrite Hp. cbn [bind].
    cbn [flt truediv binary64]. rewrite Hpos.
    unfold b64_truediv. rewrite Hnz. cbn [bind].
    destruct (PrimFloat.ltb _ min_diff); apply IH.
Qed.

Lemma range_1_16_bounds : Forall (fun r => 1 <= r <= 15) (range 1 16).
Proof.
  change (range 1 16) with [1; 2; 3; 4; 5; 6; 7; 8; 9; 10; 11; 12; 13; 14; 15].
  repeat constructor; lia.
Qed.

Lemma b64_predict_max_reps_total (w x : float) :
  fle w (lit 0) = false ->
  fle (lit 5.0) x = true -> fle x (lit 10.0) = true ->
  exists n : Z, predict_max_reps w x = Return n /\ 1 <= n <= 15.
Proof.
  intros Hw H5 H10.
  destruct (b64_predict_loop_total w x (range 1 16) H5 H10 range_1_16_bounds
              inf 1) as [n Hn].
  assert (Hp : predict_max_reps w x = Return n).
  { unfold predict_max_reps. rewrite Hw, H5, H10. exact Hn. }
  exists n. split; [ exact Hp | ].
  exact (predict_max_reps_range w x n Hp).
Qed.

Lemma b64_round_rpe_on_grid (n : Z) :
  10 <= n <= 20 ->
  (n' <- of_int n ;;
   rounded <- truediv n' (lit 2) ;;
   if flt rounded (lit 5) || flt (lit 10) rounded then
     Raise (ValueError "RPE must be between 5.0 and 10.0 (in 0.5 increments)")
   else Return rounded)%py = Return (lit (F := float) (n # 2)) /\
  fle (lit (F := float) 5.0) (lit (n # 2)) = true /\
  fle (lit (F := float) (n # 2)) (lit 10.0) = true.
Proof.
  intros Hn.
  assert (Hc : n = 10 \/ n = 11 \/ n = 12 \/ n = 13 \/ n = 14 \/ n = 15 \/
               n = 16 \/ n = 17 \/ n = 18 \/ n = 19 \/ n = 20) by lia.
  split_or Hc; subst n; repeat split; vm_compute; reflexivity.
Qed.

Lemma b64_round_rpe (x : float) :
  fle (lit 5.0) x = true -> fle x (lit 10.0) = true ->
  exists n : Z, 10 <= n <= 20 /\
    round_rpe x = Return (lit (n # 2)) /\
    fle (lit (F := float) 5.0) (lit (n # 2)) = true /\
    fle (lit (F := float) (n # 2)) (lit 10.0) = true /\
    forall reps : Z,
      _lookup_percent x reps = _lookup_percent (lit (n # 2)) reps.
Proof.
  intros H5 H10.
  destruct (b64_lookup_on_grid x H5 H10) as [n [Hn [Hround Hgrid]]].
  destruct (b64_round_rpe_on_grid n Hn) as [Hr [G5 G10]].
  exists n. split; [ exact Hn | ].
  split; [ unfold round_rpe; rewrite Hround; exact Hr | ].
  repeat split; assumption.
Qed.

(** A NaN or infinite weight leaves a NaN residual at every candidate. *)
Lemma b64_ltb_nan_l (d m : float) :
  Prim2SF d = S754_nan -> PrimFloat.ltb d m = false.
Proof. intros Hd. rewrite ltb_spec, Hd. reflexivity. Qed.

Lemma b64_residual_nan (w p : float) :
  Prim2SF w = S754_nan \/ Prim2SF w = S754_infinity false ->
  PrimFloat.ltb (lit 0) p = true ->
  Prim2SF (PrimFloat.abs (PrimFloat.sub (PrimFloat.mul (PrimFloat.div w p) p) w))
  = S754_nan.
Proof.
  intros Hw Hp. rewrite ltb_spec in Hp.
  change (Prim2SF (lit 0)) with (S754_zero false) in Hp.
  rewrite abs_spec, sub_spec, mul_spec, div_spec.
  destruct Hw as [-> | ->].
  - reflexivity.
  - destruct (Prim2SF p) as [s | s | | s m e]; try discriminate Hp.
    + destruct s; [ discriminate Hp | reflexivity ].
    + destruct s; [ discriminate Hp | reflexivity ].
Qed.


(** ** Exact arithmetic: rounding, the chart and the validator *)

Lemma round_half_even_le_even (k : Z) (x : Q) :
  Z.even k = true ->
  (round_half_even x <= k <-> (x <= inject_Z k + (1 # 2))%Q).
Proof.
  intros Hk.
  destruct (round_half_even_spec x) as [[Hlo Hhi] [_ Hup]].
  set (z := round_half_even x) in *.
  unfold Qle. cbn [Qnum Qden Qplus inject_Z].
  set (n := Qnum x) in *. set (d := Z.pos (Qden x)) in *.
  assert (Hd : 0 < d) by (subst d; lia).
  clearbody z n d.
  replace (n * Z.pos (1 * 2)) with (2 * n) by lia.
  replace ((k * 2 + 1 * 1) * d) with (2 * k * d + d) by lia.
  split.
  - intros Hz.
    assert (z * d <= k * d) by (apply Z.mul_le_mono_nonneg_r; lia).
    lia.
  - intros Hx.
    destruct (Z_le_gt_dec z k) as [ | Hgt]; [ assumption | exfalso ].
    assert (H1 : (k + 1) * d <= z * d) by (apply Z.mul_le_mono_nonneg_r; lia).
    assert (H2 : 2 * z * d = 2 * n + d) by lia.
    assert (H3 : z * d = (k + 1) * d) by lia.
    apply Z.mul_cancel_r in H3; [ | lia ].
    specialize (Hup H2). rewrite H3, Z.even_add, Hk in Hup. discriminate Hup.
Qed.

Lemma round_half_even_ge_even (k : Z) (x : Q) :
  Z.even k = true ->
  (k <= round_half_even x <-> (inject_Z k - (1 # 2) <= x)%Q).
Proof.
  intros Hk.
  destruct (round_half_even_spec x) as [[Hlo Hhi] [Hdown _]].
  set (z := round_half_even x) in *.
  unfold Qle. cbn [Qnum Qden Qplus Qminus Qopp inject_Z].
  set (n := Qnum x) in *. set (d := Z.pos (Qden x)) in *.
  assert (Hd : 0 < d) by (subst d; lia).
  clearbody z n d.
  replace (n * Z.pos (1 * 2)) with (2 * n) by lia.
  replace ((k * 2 + - 1 * 1) * d) with (2 * k * d - d) by lia.
  split.
  - intros Hz.
    assert (k * d <= z * d) by (apply Z.mul_le_mono_nonneg_r; lia).
    lia.
  - intros Hx.
    destruct (Z_le_gt_dec k z) as [ | Hgt]; [ assumption | exfalso ].
    assert (H1 : z * d <= (k - 1) * d) by (apply Z.mul_le_mono_nonneg_r; lia).
    assert (H2 : 2 * z * d = 2 * n - d) by lia.
    assert (H3 : z * d = (k - 1) * d) by lia.
    apply Z.mul_cancel_r in H3; [ | lia ].
    specialize (Hdown H2). rewrite H3, Z.even_sub, Hk in Hdown.
    discriminate Hdown.
Qed.

Lemma round_half_even_error (x : Q) :
  (inject_Z (round_half_even x) - (1 # 2) <= x
   <= inject_Z (round_half_even x) + (1 # 2))%Q.
Proof.
  destruct (round_half_even_spec x) as [[Hlo Hhi] _].
  set (z := round_half_even x) in *.
  unfold Qle. cbn [Qnum Qden Qplus Qminus Qopp inject_Z].
  set (n := Qnum x) in *. set (d := Z.pos (Qden x)) in *.
  clearbody z n d.
  split; lia.
Qed.

Lemma round_half_even_Qeq (x y : Q) :
  (x == y)%Q -> round_half_even x = round_half_even y.
Proof.
  intros Hxy. apply Z.le_antisymm; apply round_half_even_mono;
    rewrite Hxy; apply Qle_refl.
Qed.

Lemma round_half_even_inject_Z (n : Z) : round_half_even (inject_Z n) = n.
Proof.
  unfold round_half_even. cbn [Qnum Qden inject_Z].
  rewrite Z.div_1_r, Z.mod_1_r. reflexivity.
Qed.

Lemma round_to_2_5_error (x : Q) :
  (Qabs (round_to_2_5 x - x) <= 1.25)%Q.
Proof.
  unfold round_to_2_5.
  pose proof (round_half_even_error (x / 2.5)) as [Hlo Hhi].
  set (z := inject_Z (round_half_even (x / 2.5))) in *. clearbody z.
  assert (Hx : (x == x / 2.5 * 2.5)%Q) by (field; discriminate).
  set (y := (x / 2.5)%Q) in *. clearbody y.
  apply Qabs_Qle_condition. rewrite Hx. split; lra.
Qed.

Lemma Qeq_bool_half (n : Z) (q : Q) :
  Qeq_bool (inject_Z n / 2) q = (n * Z.pos (Qden q) =? 2 * Qnum q).
Proof.
  destruct q as [a b]. cbn [Qnum Qden].
  destruct (Z.eqb_spec (n * Z.pos b) (2 * a)) as [E | E].
  - apply Qeq_eq_bool. cbv [Qeq Qdiv Qmult Qinv inject_Z Qnum Qden]. lia.
  - destruct (Qeq_bool _ _) eqn:Eb; [ exfalso | reflexivity ].
    apply Qeq_bool_eq in Eb.
    cbv [Qeq Qdiv Qmult Qinv inject_Z Qnum Qden] in Eb. lia.
Qed.

(** The chart row of a grid point [n/2]. *)
Lemma exact_chart_row_grid (n : Z) :
  chart_row (Fin (inject_Z n / 2))
  = if n =? 20 then Some [100; 95; 92; 89; 86; 84; 81; 79; 76; 74]
    else if n =? 19 then Some [98; 94; 91; 88; 85; 82; 80; 77; 75; 72]
    else if n =? 18 then Some [96; 92; 89; 86; 84; 81; 79; 76; 74; 71]
    else if n =? 17 then Some [94; 89; 87; 84; 81; 79; 76; 74; 71; 69]
    else if n =? 16 then Some [92; 87; 84; 81; 79; 76; 74; 71; 69; 66]
    else if n =? 15 then Some [89; 84; 81; 79; 76; 74; 71; 69; 66; 64]
    else None.
Proof.
  unfold chart_row. cbn [feq lit exact xQ_eq].
  rewrite !Qeq_bool_half. cbn [Qnum Qden].
  repeat match goal with
         | |- context [?a =? ?b] =>
             lazymatch a with
             | n => fail
             | _ => destruct (Z.eqb_spec a b)
             end
         end;
    repeat match goal with
           | |- context [n =? ?k] => destruct (Z.eqb_spec n k)
           end; try reflexivity; exfalso; lia.
Qed.

Lemma exact_round_double_chart (rpe : Q) :
  15 <= round_half_even (rpe * 2) <= 20 <-> (7.25 < rpe <= 10.25)%Q.
Proof.
  pose proof (round_half_even_le_even 14 (rpe * 2) eq_refl) as H14.
  pose proof (round_half_even_le_even 20 (rpe * 2) eq_refl) as H20.
  change (inject_Z 14) with 14%Q in H14. change (inject_Z 20) with 20%Q in H20.
  split.
  - intros [Hlo Hhi]. split.
    + apply Qnot_le_lt. intros Hle.
      assert (round_half_even (rpe * 2) <= 14) by (apply H14; lra). lia.
    + apply H20 in Hhi. lra.
  - intros [Hlo Hhi]. split.
    + destruct (Z_le_gt_dec (round_half_even (rpe * 2)) 14) as [Hle | ];
        [ exfalso | lia ].
      apply H14 in Hle. lra.
    + apply H20. lra.
Qed.

Lemma exact_table_percent (row : list Z) (reps : Z) :
  table_percent (F := xQ) row reps
  = Return (Fin (inject_Z (nth (Z.to_nat (reps - 1)) row 0) / 100.0)).
Proof. reflexivity. Qed.

Lemma exact_lookup_ref (rpe : Q) (reps : Z) :
  _lookup_percent (Fin rpe) reps
  = match chart_row (Fin (inject_Z (round_half_even (rpe * 2)) / 2)) with
    | Some row =>
        if (1 <=? reps) && (reps <=? 10)
        then table_percent row reps
        else fallback_percent reps
    | None => fallback_percent reps
    end.
Proof.
  rewrite lookup_percent_unfold. unfold lookup_percent_ref.
  rewrite exact_quantize. reflexivity.
Qed.

Lemma exact_chart_row_some (rpe : Q) :
  (7.25 < rpe <= 10.25)%Q ->
  exists row,
    chart_row (Fin (inject_Z (round_half_even (rpe * 2)) / 2)) = Some row.
Proof.
  intros Hr. apply exact_round_double_chart in Hr.
  rewrite exact_chart_row_grid.
  repeat match goal with
         | |- context [?n =? ?k] => destruct (Z.eqb_spec n k)
         end; try (eexists; reflexivity). exfalso. lia.
Qed.

Lemma exact_chart_row_none (rpe : Q) :
  ~ (7.25 < rpe <= 10.25)%Q ->
  chart_row (Fin (inject_Z (round_half_even (rpe * 2)) / 2)) = None.
Proof.
  intros Hr. rewrite <- exact_round_double_chart in Hr.
  rewrite exact_chart_row_grid.
  repeat match goal with
         | |- context [?n =? ?k] => destruct (Z.eqb_spec n k)
         end; try reflexivity; exfalso; lia.
Qed.

Lemma exact_chart_coverage (rpe : Q) (reps : Z) :
  ((7.25 < rpe <= 10.25)%Q /\ 1 <= reps <= 10 ->
   exists row : list Z,
     chart_row (Fin (inject_Z (round_half_even (rpe * 2)) / 2)) = Some row /\
     _lookup_percent (Fin rpe) reps = table_percent row reps) /\
  (~ ((7.25 < rpe <= 10.25)%Q /\ 1 <= reps <= 10) ->
   _lookup_percent (Fin rpe) reps = fallback_percent reps).
Proof.
  rewrite exact_lookup_ref. split.
  - intros [Hrpe Hreps].
    destruct (exact_chart_row_some rpe Hrpe) as [row Hrow].
    exists row. split; [ exact Hrow | ]. rewrite Hrow.
    replace (1 <=? reps) with true by (symmetry; apply Z.leb_le; lia).
    replace (reps <=? 10) with true by (symmetry; apply Z.leb_le; lia).
    reflexivity.
  - intros Hout.
    destruct (chart_row _) as [row | ] eqn:Hrow; [ | reflexivity ].
    destruct ((1 <=? reps) && (reps <=? 10)) eqn:Hin; [ exfalso | reflexivity ].
    apply andb_prop in Hin. destruct Hin as [Hlo Hhi].
    apply Z.leb_le in Hlo, Hhi. apply Hout. split; [ | lia ].
    destruct (Qlt_le_dec 7.25 rpe) as [H1 | H1];
      [ destruct (Qlt_le_dec 10.25 rpe) as [H2 | H2] | ].
    + rewrite exact_chart_row_none in Hrow; [ discriminate Hrow | ].
      intros [_ Hc]. apply (Qlt_not_le _ _ H2 Hc).
    + split; assumption.
    + rewrite exact_chart_row_none in Hrow; [ discriminate Hrow | ].
      intros [Hc _]. apply (Qlt_not_le _ _ Hc H1).
Qed.

Lemma exact_lookup_off_chart (rpe : Q) (reps : Z) :
  (rpe <= 7.25)%Q \/ 10 < reps ->
  _lookup_percent (Fin rpe) reps
  = Return (Fin (1 / (1 + 0.0333 * inject_Z (reps - 1)))).
Proof.
  intros Hoff. rewrite <- exact_fallback.
  apply (proj2 (exact_chart_coverage rpe reps)).
  intros [[Hlo _] Hreps]. destruct Hoff as [Hrpe | Hr]; [ | lia ].
  apply (Qlt_not_le _ _ Hlo Hrpe).
Qed.


(** The chart entry at grid point [n/2] and [reps]. *)
Lemma exact_lookup_on_chart (rpe : Q) (reps : Z) :
  (7.25 < rpe <= 10.25)%Q -> 1 <= reps <= 10 ->
  exists row : list Z,
    chart_row (Fin (inject_Z (round_half_even (rpe * 2)) / 2)) = Some row /\
    _lookup_percent (Fin rpe) reps
    = Return (Fin (inject_Z (nth (Z.to_nat (reps - 1)) row 0) / 100.0)).
Proof.
  intros Hrpe Hreps.
  destruct (proj1 (exact_chart_coverage rpe reps) (conj Hrpe Hreps))
    as [row [Hrow Hp]].
  exists row. split; [ exact Hrow | ]. rewrite Hp. apply exact_table_percent.
Qed.

Lemma percent_lt (v v' : Z) :
  v < v' -> (inject_Z v / 100.0 < inject_Z v' / 100.0)%Q.
Proof.
  intros Hv. unfold Qdiv. apply Qmult_lt_compat_r; [ reflexivity | ].
  rewrite <- Zlt_Qlt. exact Hv.
Qed.

Lemma percent_le (v v' : Z) :
  v <= v' -> (inject_Z v / 100.0 <= inject_Z v' / 100.0)%Q.
Proof.
  intros Hv. apply Qdiv_le_compat_pos; [ reflexivity | ].
  rewrite <- Zle_Qle. exact Hv.
Qed.

Lemma chart_rows_decrease (n r r' : Z) (row : list Z) :
  chart_row (Fin (inject_Z n / 2)) = Some row ->
  1 <= r -> r < r' -> r' <= 10 ->
  nth (Z.to_nat (r' - 1)) row 0 < nth (Z.to_nat (r - 1)) row 0.
Proof.
  rewrite exact_chart_row_grid. intros Hrow H1 H2 H3.
  assert (Hr : r = 1 \/ r = 2 \/ r = 3 \/ r = 4 \/ r = 5 \/
               r = 6 \/ r = 7 \/ r = 8 \/ r = 9) by lia.
  assert (Hr' : r' = 2 \/ r' = 3 \/ r' = 4 \/ r' = 5 \/
                r' = 6 \/ r' = 7 \/ r' = 8 \/ r' = 9 \/ r' = 10) by lia.
  repeat match type of Hrow with
         | (if ?b then _ else _) = _ => destruct b
         end; try discriminate Hrow; injection Hrow as <-;
    split_or Hr; subst r; split_or Hr'; subst r'; try lia; reflexivity.
Qed.

Lemma chart_columns_increase (n n' r : Z) (row row' : list Z) :
  chart_row (Fin (inject_Z n / 2)) = Some row ->
  chart_row (Fin (inject_Z n' / 2)) = Some row' ->
  n <= n' -> 1 <= r <= 10 ->
  nth (Z.to_nat (r - 1)) row 0 <= nth (Z.to_nat (r - 1)) row' 0.
Proof.
  rewrite !exact_chart_row_grid. intros Hrow Hrow' Hn Hr.
  assert (Hc : r = 1 \/ r = 2 \/ r = 3 \/ r = 4 \/ r = 5 \/
               r = 6 \/ r = 7 \/ r = 8 \/ r = 9 \/ r = 10) by lia.
  repeat match type of Hrow with
         | (if ?a =? ?k then _ else _) = _ => destruct (Z.eqb_spec a k)
         end; try discriminate Hrow; injection Hrow as <-;
    repeat match type of Hrow' with
           | (if ?a =? ?k then _ else _) = _ => destruct (Z.eqb_spec a k)
           end; try discriminate Hrow'; injection Hrow' as <-;
    try (exfalso; lia);
    split_or Hc; subst r; vm_compute; discriminate.
Qed.

(** X6.  Inside the chart (an RPE above 7.25 and up to 10.25, reps 1..10)
    the percent strictly falls as the rep count grows. *)
Theorem chart_percent_falls_with_reps (rpe : Q) (r r' : Z) :
  (7.25 < rpe <= 10.25)%Q -> 1 <= r -> r < r' -> r' <= 10 ->
  exists p p' : Q,
    _lookup_percent (Fin rpe) r = Return (Fin p) /\
    _lookup_percent (Fin rpe) r' = Return (Fin p') /\
    (p' < p)%Q.
Proof.
  intros Hrpe H1 H2 H3.
  destruct (exact_lookup_on_chart rpe r Hrpe ltac:(lia)) as [row [Hrow Hp]].
  destruct (exact_lookup_on_chart rpe r' Hrpe ltac:(lia)) as [row' [Hrow' Hp']].
  rewrite Hrow in Hrow'. injection Hrow' as <-.
  do 2 eexists. split; [ exact Hp | ]. split; [ exact Hp' | ].
  apply percent_lt. now apply (chart_rows_decrease _ r r' row Hrow).
Qed.

(** X7.  Inside the chart, at a fixed rep count, a higher RPE never gets
    a lower percent. *)
Theorem chart_percent_rises_with_rpe (rpe rpe' : Q) (r : Z) :
  (7.25 < rpe)%Q -> (rpe <= rpe')%Q -> (rpe' <= 10.25)%Q -> 1 <= r <= 10 ->
  exists p p' : Q,
    _lookup_percent (Fin rpe) r = Return (Fin p) /\
    _lookup_percent (Fin rpe') r = Return (Fin p') /\
    (p <= p')%Q.
Proof.
  intros H1 H2 H3 Hr.
  assert (Hrpe : (7.25 < rpe <= 10.25)%Q) by (split; lra).
  assert (Hrpe' : (7.25 < rpe' <= 10.25)%Q) by (split; lra).
  destruct (exact_lookup_on_chart rpe r Hrpe Hr) as [row [Hrow Hp]].
  destruct (exact_lookup_on_chart rpe' r Hrpe' Hr) as [row' [Hrow' Hp']].
  do 2 eexists. split; [ exact Hp | ]. split; [ exact Hp' | ].
  apply percent_le.
  apply (chart_columns_increase _ _ r row row' Hrow Hrow'); [ | exact Hr ].
  apply round_half_even_mono. lra.
Qed.

Lemma fallback_value_decreases (k k' : Z) :
  0 <= k -> k < k' ->
  (1 / (1 + 0.0333 * inject_Z k') < 1 / (1 + 0.0333 * inject_Z k))%Q.
Proof.
  intros Hk Hkk.
  assert (H0 : (0 <= inject_Z k)%Q)
    by (change 0%Q with (inject_Z 0); rewrite <- Zle_Qle; lia).
  assert (H1 : (inject_Z k < inject_Z k')%Q) by (rewrite <- Zlt_Qlt; lia).
  set (a := inject_Z k) in *. set (b := inject_Z k') in *. clearbody a b.
  apply Qlt_shift_div_l; [ lra | ].
  assert (E : (1 / (1 + 0.0333 * b) * (1 + 0.0333 * a)
               == (1 + 0.0333 * a) / (1 + 0.0333 * b))%Q) by (field; lra).
  rewrite E. apply Qlt_shift_div_r; lra.
Qed.


Lemma half_bounds (n : Z) :
  (5 <= inject_Z n / 2 <= 10)%Q <-> 10 <= n <= 20.
Proof.
  unfold Qle. cbv [Qdiv Qmult Qinv inject_Z Qnum Qden]. lia.
Qed.

Lemma exact_round_rpe (v : Q) :
  round_rpe (Fin v)
  = if Qlt_bool (inject_Z (round_half_even (v * 2)) / 2) 5
       || Qlt_bool 10 (inject_Z (round_half_even (v * 2)) / 2)
    then Raise (ValueError
                  "RPE must be between 5.0 and 10.0 (in 0.5 increments)")
    else Return (Fin (inject_Z (round_half_even (v * 2)) / 2)).
Proof. reflexivity. Qed.

Lemma exact_round_double_valid (v : Q) :
  10 <= round_half_even (v * 2) <= 20 <-> (4.75 <= v <= 10.25)%Q.
Proof.
  pose proof (round_half_even_ge_even 10 (v * 2) eq_refl) as H10.
  pose proof (round_half_even_le_even 20 (v * 2) eq_refl) as H20.
  change (inject_Z 10) with 10%Q in H10. change (inject_Z 20) with 20%Q in H20.
  split.
  - intros [Hlo Hhi]. apply H10 in Hlo. apply H20 in Hhi. split; lra.
  - intros [Hlo Hhi]. split; [ apply H10 | apply H20 ]; lra.
Qed.

Lemma exact_round_rpe_accepts (v : Q) :
  (4.75 <= v <= 10.25)%Q ->
  round_rpe (Fin v) = Return (Fin (inject_Z (round_half_even (v * 2)) / 2)).
Proof.
  intros Hv. apply exact_round_double_valid in Hv. apply half_bounds in Hv.
  rewrite exact_round_rpe.
  rewrite (Qlt_bool_false _ 5) by tauto.
  rewrite (Qlt_bool_false 10) by tauto.
  reflexivity.
Qed.

Lemma exact_round_rpe_rejects (v : Q) :
  ~ (4.75 <= v <= 10.25)%Q ->
  round_rpe (Fin v)
  = Raise (ValueError "RPE must be between 5.0 and 10.0 (in 0.5 increments)").
Proof.
  intros Hv. rewrite <- exact_round_double_valid, <- half_bounds in Hv.
  rewrite exact_round_rpe.
  destruct (Qlt_le_dec (inject_Z (round_half_even (v * 2)) / 2) 5) as [Hl | Hl].
  - rewrite (Qlt_bool_true _ _ Hl). reflexivity.
  - destruct (Qlt_le_dec 10 (inject_Z (round_half_even (v * 2)) / 2))
      as [Hh | Hh].
    + rewrite (Qlt_bool_true _ _ Hh), orb_true_r. reflexivity.
    + exfalso. apply Hv. split; assumption.
Qed.

Lemma exact_requantize (v : Q) (reps : Z) :
  _lookup_percent (Fin (inject_Z (round_half_even (v * 2)) / 2)) reps
  = _lookup_percent (Fin v) reps.
Proof.
  rewrite !exact_lookup_ref.
  assert (E : round_half_even (inject_Z (round_half_even (v * 2)) / 2 * 2)
              = round_half_even (v * 2)).
  { rewrite (round_half_even_Qeq _ (inject_Z (round_half_even (v * 2))))
      by field.
    apply round_half_even_inject_Z. }
  rewrite E. reflexivity.
Qed.

Lemma quantize_error (v : Q) :
  (Qabs (inject_Z (round_half_even (v * 2)) / 2 - v) <= 1 # 4)%Q.
Proof.
  pose proof (round_half_even_error (v * 2)) as [Hlo Hhi].
  set (z := inject_Z (round_half_even (v * 2))) in *. clearbody z.
  apply Qabs_Qle_condition.
  assert (E : (z / 2 == z * (1 # 2))%Q) by (field).
  rewrite E. split; lra.
Qed.



Lemma exact_constraints_iff (rpe w : Q) (reps : Z) :
  rpe_field (Fin rpe) && weight_field (Fin w) && reps_field reps = true
  <-> (5 <= rpe <= 10)%Q /\ (0 < w)%Q /\ 1 <= reps <= 20.
Proof.
  unfold rpe_field, weight_field, reps_field.
  cbn [fle flt lit exact xQ_le xQ_lt].
  rewrite !andb_true_iff, !Qle_bool_iff, Z.ltb_lt, Z.leb_le.
  unfold Qlt_bool. rewrite negb_true_iff.
  split.
  - intros [[[H5 H10] Hw] [H0 H20]].
    split; [ split; lra | ]. split; [ | lia ].
    apply Qnot_le_lt. intros Hle. apply (proj2 (Qle_bool_iff w 0)) in Hle.
    congruence.
  - intros [[H5 H10] [Hw Hreps]].
    split; [ split; [ split; lra | ] | lia ].
    now apply Qle_bool_false.
Qed.


Lemma round_to_2_5_nonneg (x : Q) : (0 <= x)%Q -> (0 <= round_to_2_5 x)%Q.
Proof.
  intros Hx. apply Qle_trans with (round_to_2_5 0).
  - vm_compute. discriminate.
  - now apply round_to_2_5_mono.
Qed.

Lemma exact_calculate_valid (rpe w : Q) (reps : Z) :
  (5 <= rpe <= 10)%Q -> (0 < w)%Q -> 1 <= reps <= 20 ->
  calculate_warmup_sets (Fin rpe) (Fin w) reps
  = Return (four_sets (Fin (round_to_2_5 (w * 0.5)))
                      (Fin (round_to_2_5 (w * 0.7)))
                      (Fin (round_to_2_5 (w * 0.8)))
                      (Fin (round_to_2_5 (w * 0.9)))).
Proof.
  intros Hrpe Hw Hreps. rewrite exact_calculate_warmup_sets.
  rewrite (proj2 (rpe_check_iff rpe) Hrpe).
  rewrite (proj2 (weight_check_iff w) Hw).
  rewrite (proj2 (reps_check_iff reps) Hreps).
  reflexivity.
Qed.

(** X2.  Every warm-up weight is non-negative and at most 1.25 away from
    its nominal share (50, 70, 80, 90 percent) of the top-set weight. *)
Theorem warmup_weights_within_1_25 (rpe w : Q) (reps : Z) :
  (5 <= rpe <= 10)%Q -> (0 < w)%Q -> 1 <= reps <= 20 ->
  exists w1 w2 w3 w4 : Q,
    calculate_warmup_sets (Fin rpe) (Fin w) reps
    = Return (four_sets (Fin w1) (Fin w2) (Fin w3) (Fin w4)) /\
    (Qabs (w1 - w * 0.5) <= 1.25)%Q /\ (Qabs (w2 - w * 0.7) <= 1.25)%Q /\
    (Qabs (w3 - w * 0.8) <= 1.25)%Q /\ (Qabs (w4 - w * 0.9) <= 1.25)%Q /\
    (0 <= w1)%Q /\ (0 <= w2)%Q /\ (0 <= w3)%Q /\ (0 <= w4)%Q.
Proof.
  intros Hrpe Hw Hreps. do 4 eexists.
  split; [ now apply exact_calculate_valid | ].
  repeat split; try apply round_to_2_5_error; apply round_to_2_5_nonneg; lra.
Qed.

Lemma round_to_2_5_le_10 (x : Q) : (x <= 11.25)%Q -> (round_to_2_5 x <= 10)%Q.
Proof.
  intros Hx. unfold round_to_2_5.
  assert (Hz : round_half_even (x / 2.5) <= 4).
  { apply (round_half_even_le_even 4 _ eq_refl).
    change (inject_Z 4) with 4%Q.
    apply Qle_shift_div_r; [ reflexivity | lra ]. }
  rewrite Zle_Qle in Hz.
  change (inject_Z 4) with 4%Q in Hz. lra.
Qed.

Lemma round_to_2_5_upper (x : Q) : (round_to_2_5 x <= x + 1.25)%Q.
Proof.
  pose proof (round_to_2_5_error x) as He.
  apply Qabs_Qle_condition in He. lra.
Qed.

(** X3.  From a top-set weight of 10 upwards no warm-up set is heavier
    than the top set. *)
Theorem warmup_weights_at_most_top_set (rpe w : Q) (reps : Z) :
  (5 <= rpe <= 10)%Q -> (10 <= w)%Q -> 1 <= reps <= 20 ->
  exists w1 w2 w3 w4 : Q,
    calculate_warmup_sets (Fin rpe) (Fin w) reps
    = Return (four_sets (Fin w1) (Fin w2) (Fin w3) (Fin w4)) /\
    (w1 <= w)%Q /\ (w2 <= w)%Q /\ (w3 <= w)%Q /\ (w4 <= w)%Q.
Proof.
  intros Hrpe Hw Hreps. do 4 eexists.
  split; [ apply exact_calculate_valid; try assumption; lra | ].
  assert (H9 : (round_to_2_5 (w * 0.9) <= w)%Q).
  { destruct (Qlt_le_dec w 12.5) as [Hs | Hl].
    - apply Qle_trans with 10%Q; [ | exact Hw ].
      apply round_to_2_5_le_10. lra.
    - pose proof (round_to_2_5_upper (w * 0.9)). lra. }
  assert (H5 : (round_to_2_5 (w * 0.5) <= round_to_2_5 (w * 0.9))%Q)
    by (apply round_to_2_5_mono; lra).
  assert (H7 : (round_to_2_5 (w * 0.7) <= round_to_2_5 (w * 0.9))%Q)
    by (apply round_to_2_5_mono; lra).
  assert (H8 : (round_to_2_5 (w * 0.8) <= round_to_2_5 (w * 0.9))%Q)
    by (apply round_to_2_5_mono; lra).
  repeat split; lra.
Qed.

(** X4.  The bound 10 of X3 is sharp: for every top-set weight from 9.75
    up to but excluding 10 the last warm-up set weighs 10, more than the
    top set. *)
Theorem last_warmup_exceeds_top_set_below_10 (rpe w : Q) (reps : Z) :
  (5 <= rpe <= 10)%Q -> (9.75 <= w)%Q -> (w < 10)%Q -> 1 <= reps <= 20 ->
  exists w1 w2 w3 w4 : Q,
    calculate_warmup_sets (Fin rpe) (Fin w) reps
    = Return (four_sets (Fin w1) (Fin w2) (Fin w3) (Fin w4)) /\
    (w4 == 10)%Q /\ (w < w4)%Q.
Proof.
  intros Hrpe Hlo Hhi Hreps. do 4 eexists.
  split; [ apply exact_calculate_valid; try assumption; lra | ].
  assert (Hz : round_half_even (w * 0.9 / 2.5) = 4).
  { apply Z.le_antisymm.
    - apply (round_half_even_le_even 4 _ eq_refl).
      change (inject_Z 4) with 4%Q.
      apply Qle_shift_div_r; [ reflexivity | lra ].
    - apply (round_half_even_ge_even 4 _ eq_refl).
      change (inject_Z 4) with 4%Q.
      apply Qle_shift_div_l; [ reflexivity | lra ]. }
  assert (E : (round_to_2_5 (w * 0.9) == 10)%Q).
  { unfold round_to_2_5. rewrite Hz. reflexivity. }
  split; [ exact E | rewrite E; exact Hhi ].
Qed.

Lemma fallback_above_row_10 (r : Z) :
  1 <= r <= 10 ->
  (inject_Z (nth (Z.to_nat (r - 1))
               [100; 95; 92; 89; 86; 84; 81; 79; 76; 74]%Z 0%Z) / 100.0
   <= 1 / (1 + 0.0333 * inject_Z (r - 1)))%Q.
Proof.
  intros Hr.
  assert (Hc : r = 1 \/ r = 2 \/ r = 3 \/ r = 4 \/ r = 5 \/
               r = 6 \/ r = 7 \/ r = 8 \/ r = 9 \/ r = 10) by lia.
  split_or Hc; subst r; vm_compute; discriminate.
Qed.



(** ** Any arithmetic, and binary64 edge cases *)

Section Shape.
Context {F : Type} `{PyFloat F}.

(** X1.  Whatever the arithmetic (binary64 included), a list returned by
    [calculate_warmup_sets] is the four sets numbered 1..4 with reps
    5, 3, 2, 1 and the fixed labels. *)
Theorem returned_warmup_sets_have_fixed_shape
    (rpe w : F) (reps : Z) (sets : list (WarmupSet F)) :
  calculate_warmup_sets rpe w reps = Return sets ->
  exists w1 w2 w3 w4 : F, sets = four_sets w1 w2 w3 w4.
Proof.
  unfold calculate_warmup_sets.
  destruct (negb _); [ discriminate | ].
  destruct (fle w (lit 0)); [ discriminate | ].
  destruct (negb _); [ discriminate | ].
  cbn [warmup_loop warmup_percentages].
  repeat match goal with
         | |- bind ?c _ = _ -> _ =>
             destruct c; cbn [bind]; [ | discriminate ]
         end.
  intros Hs. injection Hs as <-. do 4 eexists. reflexivity.
Qed.

(** The search reads the RPE through the lookup only. *)
Lemma predict_loop_ext (w x x' : F) (todo : list Z) :
  (forall r, _lookup_percent x r = _lookup_percent x' r) ->
  forall min_diff best,
    predict_loop w x todo min_diff best = predict_loop w x' todo min_diff best.
Proof.
  intros Hext. induction todo as [ | r todo IH]; intros min_diff best.
  - reflexivity.
  - cbn [predict_loop]. rewrite Hext.
    destruct (_lookup_percent x' r) as [p | e]; [ | reflexivity ].
    cbn [bind].
    destruct (if flt (lit 0) p then truediv w p else of_int 0) as [est | e];
      [ | reflexivity ].
    cbn [bind]. destruct (flt _ min_diff); apply IH.
Qed.
End Shape.

Lemma b64_positive_not_le_zero (w : float) :
  PrimFloat.ltb (lit 0) w = true -> PrimFloat.leb w (lit 0) = false.
Proof.
  rewrite ltb_spec, leb_spec.
  change (Prim2SF (lit 0)) with (S754_zero false).
  destruct (Prim2SF w) as [s | s | | s m e]; try discriminate.
  - destruct s; [ discriminate | reflexivity ].
  - destruct s; [ discriminate | reflexivity ].
Qed.

Lemma b64_nonfinite_loop (w x : float) (todo : list Z) :
  Prim2SF w = S754_nan \/ Prim2SF w = S754_infinity false ->
  fle (lit 5.0) x = true -> fle x (lit 10.0) = true ->
  Forall (fun r => 1 <= r <= 15) todo ->
  forall (min_diff : float) (best : Z),
    predict_loop w x todo min_diff best = Return best.
Proof.
  intros Hw H5 H10 Hall.
  induction Hall as [ | r todo Hr _ IH]; intros min_diff best.
  - reflexivity.
  - destruct (b64_lookup_returns x r H5 H10 Hr) as [p [Hp [Hpos [_ Hnz]]]].
    cbn [predict_loop]. rewrite Hp. cbn [bind].
    cbn [flt truediv binary64 fabs fsub fmul]. rewrite Hpos.
    unfold b64_truediv. rewrite Hnz. cbn [bind].
    rewrite (b64_ltb_nan_l _ min_diff (b64_residual_nan w p Hw Hpos)).
    apply IH.
Qed.

(** X15.  [predict_max_reps] does not reject an infinite or NaN weight:
    both pass [weight <= 0], every residual is NaN, and the answer is 1. *)
Theorem predict_max_reps_nonfinite_weight (x : float) :
  fle (lit 5.0) x = true -> fle x (lit 10.0) = true ->
  predict_max_reps PrimFloat.infinity x = Return 1 /\
  predict_max_reps PrimFloat.nan x = Return 1.
Proof.
  intros H5 H10. split; unfold predict_max_reps; rewrite H5, H10.
  - change (fle (F := float) infinity (lit 0)) with false. cbn [andb negb].
    apply b64_nonfinite_loop; try assumption;
      [ right; reflexivity | apply range_1_16_bounds ].
  - change (fle (F := float) nan (lit 0)) with false. cbn [andb negb].
    apply b64_nonfinite_loop; try assumption;
      [ left; reflexivity | apply range_1_16_bounds ].
Qed.

(** X16.  [calculate_warmup_sets] lets an infinite or NaN weight through
    its checks and fails in [round]: with [OverflowError] for infinity,
    with a [ValueError] that names no range for NaN. *)
Theorem calculate_warmup_sets_nonfinite_weight (x : float) (reps : Z) :
  fle (lit 5.0) x = true -> fle x (lit 10.0) = true -> 1 <= reps <= 20 ->
  calculate_warmup_sets x PrimFloat.infinity reps
  = Raise (OverflowError "cannot convert float infinity to integer") /\
  calculate_warmup_sets x PrimFloat.nan reps
  = Raise (ValueError "cannot convert float NaN to integer").
Proof.
  intros H5 H10 Hreps. split.
  - rewrite (calculate_warmup_sets_valid x infinity reps)
      by (assumption || reflexivity).
    vm_compute. reflexivity.
  - rewrite (calculate_warmup_sets_valid x nan reps)
      by (assumption || reflexivity).
    vm_compute. reflexivity.
Qed.



(** ** The remaining statements and the witnesses *)

(** X5.  In exact arithmetic [_lookup_percent] answers from the chart
    exactly when 7.25 < rpe <= 10.25 and 1 <= reps <= 10; everywhere else
    it answers with the fallback.  The RPE 7.25 itself rounds down to 7.0
    and RPE 10.25 rounds down to 10.0. *)
Theorem lookup_percent_chart_coverage (rpe : Q) (reps : Z) :
  ((7.25 < rpe <= 10.25)%Q /\ 1 <= reps <= 10 ->
   exists row : list Z,
     chart_row (Fin (inject_Z (round_half_even (rpe * 2)) / 2)) = Some row /\
     _lookup_percent (Fin rpe) reps = table_percent row reps) /\
  (~ ((7.25 < rpe <= 10.25)%Q /\ 1 <= reps <= 10) ->
   _lookup_percent (Fin rpe) reps = fallback_percent reps).
Proof. apply exact_chart_coverage. Qed.

(** X13.  In binary64, for every double rpe with 5.0 <= rpe <= 10.0 and
    every candidate 1..15, [_lookup_percent] returns: the value is the one
    at the grid point [n/2] the RPE rounds to (10 <= n <= 20), it is
    positive and at most 1. *)
Theorem binary64_lookup_percent_returns (x : float) (r : Z) :
  fle (lit 5.0) x = true -> fle x (lit 10.0) = true -> 1 <= r <= 15 ->
  exists (n : Z) (p : float),
    10 <= n <= 20 /\
    round (fmul x (lit 2)) = Return n /\
    _lookup_percent x r = Return p /\
    _lookup_percent (lit (n # 2)) r = Return p /\
    flt (lit 0) p = true /\ fle p (lit 1) = true.
Proof.
  intros H5 H10 Hr.
  destruct (b64_lookup_on_grid x H5 H10) as [n [Hn [Hround Hgrid]]].
  destruct (b64_grid_lookup_returns n r Hn Hr) as [p [Hp [Hpos [Hle _]]]].
  exists n, p. split; [ exact Hn | ]. split; [ exact Hround | ].
  split; [ rewrite Hgrid; exact Hp | ]. split; [ exact Hp | ].
  split; assumption.
Qed.

(** X14.  In binary64 [predict_max_reps] returns a rep count in 1..15 for
    every pair of doubles that passes its two checks: no exception leaves
    the search. *)
Theorem binary64_predict_max_reps_returns (w x : float) :
  fle w (lit 0) = false ->
  fle (lit 5.0) x = true -> fle x (lit 10.0) = true ->
  exists n : Z, predict_max_reps w x = Return n /\ 1 <= n <= 15.
Proof. apply b64_predict_max_reps_total. Qed.


Lemma returned_warmup_sets_have_fixed_shape_witness :
  exists w1 w2 w3 w4 : float,
    (four_sets 70 97.5 112.5 125)%float = four_sets w1 w2 w3 w4.
Proof.
  apply (returned_warmup_sets_have_fixed_shape (F := float)
           (lit 8) (lit 140) 5).
  vm_compute. reflexivity.
Defined.

Lemma warmup_weights_within_1_25_witness :
  exists w1 w2 w3 w4 : Q,
    calculate_warmup_sets (Fin 8) (Fin 140) 5
    = Return (four_sets (Fin w1) (Fin w2) (Fin w3) (Fin w4)) /\
    (Qabs (w1 - 140 * 0.5) <= 1.25)%Q /\ (Qabs (w2 - 140 * 0.7) <= 1.25)%Q /\
    (Qabs (w3 - 140 * 0.8) <= 1.25)%Q /\ (Qabs (w4 - 140 * 0.9) <= 1.25)%Q /\
    (0 <= w1)%Q /\ (0 <= w2)%Q /\ (0 <= w3)%Q /\ (0 <= w4)%Q.
Proof.
  apply (warmup_weights_within_1_25 8 140 5).
  - split; discriminate.
  - reflexivity.
  - lia.
Defined.

Lemma warmup_weights_at_most_top_set_witness :
  exists w1 w2 w3 w4 : Q,
    calculate_warmup_sets (Fin 8) (Fin 10) 5
    = Return (four_sets (Fin w1) (Fin w2) (Fin w3) (Fin w4)) /\
    (w1 <= 10)%Q /\ (w2 <= 10)%Q /\ (w3 <= 10)%Q /\ (w4 <= 10)%Q.
Proof.
  apply (warmup_weights_at_most_top_set 8 10 5).
  - split; discriminate.
  - discriminate.
  - lia.
Defined.

Lemma last_warmup_exceeds_top_set_below_10_witness :
  exists w1 w2 w3 w4 : Q,
    calculate_warmup_sets (Fin 8) (Fin 9.8) 5
    = Return (four_sets (Fin w1) (Fin w2) (Fin w3) (Fin w4)) /\
    (w4 == 10)%Q /\ (9.8 < w4)%Q.
Proof.
  apply (last_warmup_exceeds_top_set_below_10 8 9.8 5).
  - split; discriminate.
  - discriminate.
  - reflexivity.
  - lia.
Defined.

Lemma chart_percent_falls_with_reps_witness :
  exists p p' : Q,
    _lookup_percent (Fin 8) 5 = Return (Fin p) /\
    _lookup_percent (Fin 8) 6 = Return (Fin p') /\
    (p' < p)%Q.
Proof.
  apply (chart_percent_falls_with_reps 8 5 6); try lia.
  split; [ reflexivity | discriminate ].
Defined.

Lemma chart_percent_rises_with_rpe_witness :
  exists p p' : Q,
    _lookup_percent (Fin 8) 5 = Return (Fin p) /\
    _lookup_percent (Fin 9.5) 5 = Return (Fin p') /\
    (p <= p')%Q.
Proof.
  apply (chart_percent_rises_with_rpe 8 9.5 5); try lia.
  - reflexivity.
  - discriminate.
  - discriminate.
Defined.




Lemma binary64_lookup_percent_returns_witness :
  exists (n : Z) (p : float),
    10 <= n <= 20 /\
    round (fmul (lit (F := float) 7.8) (lit 2)) = Return n /\
    _lookup_percent (lit 7.8) 5 = Return p /\
    _lookup_percent (lit (n # 2)) 5 = Return p /\
    flt (lit 0) p = true /\ fle p (lit 1) = true.
Proof.
  apply (binary64_lookup_percent_returns (lit 7.8) 5);
    try reflexivity; lia.
Defined.

Lemma binary64_predict_max_reps_returns_witness :
  exists n : Z,
    predict_max_reps (F := float) (lit 60) (lit 8) = Return n /\ 1 <= n <= 15.
Proof.
  apply (binary64_predict_max_reps_returns (lit 60) (lit 8)); reflexivity.
Defined.


Lemma predict_max_reps_nonfinite_weight_witness :
  predict_max_reps PrimFloat.infinity (lit 8) = Return 1 /\
  predict_max_reps PrimFloat.nan (lit 8) = Return 1.
Proof.
  apply (predict_max_reps_nonfinite_weight (lit 8)); reflexivity.
Defined.

Lemma calculate_warmup_sets_nonfinite_weight_witness :
  calculate_warmup_sets (lit 8) PrimFloat.infinity 5
  = Raise (OverflowError "cannot convert float infinity to integer") /\
  calculate_warmup_sets (lit 8) PrimFloat.nan 5
  = Raise (ValueError "cannot convert float NaN to integer").
Proof.
  apply (calculate_warmup_sets_nonfinite_weight (lit 8) 5);
    try reflexivity; lia.
Defined.


